(** * platereadertools.Organize: the plate-reader export parser

    A shallow embedding of [Organize] from [src/platereadertools.py].

    - Python [str] is [string]; the file object is the list of lines its
      iterator yields (each one with its terminator, the last one possibly
      without).
    - Python [float] and the cells of a NumPy [float64] array are binary64
      primitive floats; [np.nan] is [nan].
    - A NumPy array is a record of its dimensions and its row-major buffer.
    - [data_dict] and [time_dict] are finite maps keyed by the read title.
    - An exception is a value of [exn]; everything that can raise returns a
      [result].
    - The reading of a numeral by [float()] and by NumPy's item assignment is
      a parameter of the development.
    - The [debug] prints have no effect on the result and are left out. *)

From Stdlib Require Import ZArith String Ascii List Lia Bool.
From Stdlib Require Import Floats.PrimFloat Floats.SpecFloat Floats.FloatOps
  Floats.FloatAxioms.
From Stdlib Require Import Numbers.Cyclic.Int63.Uint63.
From stdpp Require Import gmap strings list.

Local Open Scope Z_scope.

(** ** Exceptions *)

Inductive exn : Set :=
  | UnboundLocalError
  | KeyError
  | IndexError
  | ValueError
  | ZeroDivisionError
  | OverflowError.

Inductive result (A : Type) : Type :=
  | Ok (a : A)
  | Raise (e : exn).
Arguments Ok {A} a.
Arguments Raise {A} e.

#[global] Instance result_bind : MBind result :=
  fun A B (k : A → result B) (r : result A) =>
    match r with
    | Ok a => k a
    | Raise e => Raise e
    end.

Definition or_raise {A : Type} (e : exn) (o : option A) : result A :=
  match o with
  | Some a => Ok a
  | None => Raise e
  end.

(** [for x in l: s = body x s], stopping at the first exception. *)
Fixpoint for_each {A S : Type} (l : list A) (body : A → S → result S) (s : S)
  : result S :=
  match l with
  | [] => Ok s
  | x :: l' => s' ← body x s ; for_each l' body s'
  end.

(** [range(n)] *)
Definition range (n : Z) : list Z := Z.of_nat <$> seq 0 (Z.to_nat n).

(** ** Strings *)

Definition NL : string := String "010"%char EmptyString.
Definition TAB : ascii := "009"%char.

(** [s[0:n]] *)
Definition slice_to (n : nat) (s : string) : string := substring 0 n s.

(** [s[:-1]] *)
Fixpoint drop_last (s : string) : string :=
  match s with
  | EmptyString => EmptyString
  | String c EmptyString => EmptyString
  | String c s' => String c (drop_last s')
  end.

(** [pat in s] *)
Fixpoint contains (pat s : string) : bool :=
  String.prefix pat s ||
  match s with
  | EmptyString => false
  | String _ s' => contains pat s'
  end.

(** [str.isspace] on the code points of ISO-8859-1. *)
Definition isspace (c : ascii) : bool :=
  let n := nat_of_ascii c in
  ((9 <=? n) && (n <=? 13) || (28 <=? n) && (n <=? 32) ||
   (n =? 133) || (n =? 160))%nat.

Fixpoint lstrip (s : string) : string :=
  match s with
  | EmptyString => EmptyString
  | String c s' => if isspace c then lstrip s' else s
  end.

Fixpoint rstrip (s : string) : string :=
  match s with
  | EmptyString => EmptyString
  | String c s' =>
      match rstrip s' with
      | EmptyString => if isspace c then EmptyString else String c EmptyString
      | r => String c r
      end
  end.

(** [s.strip()] *)
Definition strip (s : string) : string := lstrip (rstrip s).

(** [s.split(sep)] for a one-character separator. *)
Fixpoint split (sep : ascii) (s : string) : list string :=
  match s with
  | EmptyString => [EmptyString]
  | String c s' =>
      if Ascii.eqb c sep then EmptyString :: split sep s'
      else match split sep s' with
           | tok :: rest => String c tok :: rest
           | [] => [String c EmptyString]
           end
  end.

(** ** Indexing *)

(** A Python or NumPy index [i] into a dimension of size [n]: negative
    indices count from the end, anything else out of range raises. *)
Definition norm_index (n i : Z) : result Z :=
  if (0 <=? i) && (i <? n) then Ok i
  else if (- n <=? i) && (i <? 0) then Ok (i + n)
  else Raise IndexError.

(** [l[i]] on a Python list. *)
Definition py_getitem {A : Type} (l : list A) (i : Z) : result A :=
  j ← norm_index (Z.of_nat (length l)) i;
  or_raise IndexError (l !! Z.to_nat j).

(** ** NumPy arrays of [float64] *)

(** One-dimensional array. *)
Abbreviation vec := (list float).

(** [np.zeros(n)] *)
Definition np_zeros1 (n : Z) : result vec :=
  if n <? 0 then Raise ValueError else Ok (replicate (Z.to_nat n) 0%float).

(** [a[:] = v] *)
Definition vec_fill (v : float) (a : vec) : vec := (fun _ => v) <$> a.

(** [a[i] = v] *)
Definition vec_setitem (a : vec) (i : Z) (v : float) : result vec :=
  j ← norm_index (Z.of_nat (length a)) i;
  Ok (<[Z.to_nat j := v]> a).

(** Three-dimensional array in C order. *)
Record grid : Type := Grid {
  dim0 : Z;
  dim1 : Z;
  dim2 : Z;
  cells : list float
}.

Definition shape (g : grid) : Z * Z * Z := (dim0 g, dim1 g, dim2 g).

(** [np.zeros((d0, d1, d2))] *)
Definition np_zeros3 (d0 d1 d2 : Z) : result grid :=
  if (d0 <? 0) || (d1 <? 0) || (d2 <? 0) then Raise ValueError
  else Ok (Grid d0 d1 d2 (replicate (Z.to_nat (d0 * d1 * d2)) 0%float)).

(** [g[:] = v] *)
Definition grid_fill (v : float) (g : grid) : grid :=
  Grid (dim0 g) (dim1 g) (dim2 g) ((fun _ => v) <$> cells g).

Definition flat_index (g : grid) (i j k : Z) : nat :=
  Z.to_nat ((i * dim1 g + j) * dim2 g + k).

(** The cell that [g[i, j, k]] addresses. *)
Definition item_pointer (g : grid) (i j k : Z) : result nat :=
  i' ← norm_index (dim0 g) i;
  j' ← norm_index (dim1 g) j;
  k' ← norm_index (dim2 g) k;
  Ok (flat_index g i' j' k').

(** Writing [v] into the cell at [p]. *)
Definition poke (g : grid) (p : nat) (v : float) : grid :=
  Grid (dim0 g) (dim1 g) (dim2 g) (<[p := v]> (cells g)).

(** [g[i, j, k]] *)
Definition grid_getitem (g : grid) (i j k : Z) : result float :=
  p ← item_pointer g i j k;
  or_raise IndexError (cells g !! p).

(** ** Numbers *)

(** [x / y] on floats. *)
Definition float_truediv (x y : float) : result float :=
  if PrimFloat.eqb y 0%float then Raise ZeroDivisionError
  else Ok (PrimFloat.div x y).

(** [int(x)] on a float: truncation towards zero. *)
Definition py_int (x : float) : result Z :=
  match Prim2SF x with
  | S754_zero _ => Ok 0
  | S754_infinity _ => Raise OverflowError
  | S754_nan => Raise ValueError
  | S754_finite s m e => Ok (cond_Zopp s (Z.shiftl (Z.pos m) e))
  end.

(** The largest integer below a float, where there is one. *)
Definition float_floor (x : float) : option Z :=
  match Prim2SF x with
  | S754_zero _ => Some 0
  | S754_finite false m e => Some (Z.shiftl (Z.pos m) e)
  | S754_finite true m e => Some (Z.shiftl (Z.neg m) e)
  | _ => None
  end.

(** ** The parser *)

Record state : Type := State {
  time_i : option Z;
  read : option string;
  data_dict : gmap string grid;
  time_dict : gmap string vec
}.

(** Before the first line: [time_i] and [read] are unbound. *)
Definition init : state := State None None ∅ ∅.

(** The condition of the [if]. *)
Definition is_header (line : string) : bool :=
  (slice_to 4 line =? "Read")%string || (slice_to 3 line =? "GFP")%string ||
  (slice_to 3 line =? "RFP")%string || (slice_to 3 line =? "600")%string ||
  (slice_to 5 line =? "Ratio")%string ||
  (String.length line =? 4)%nat || (String.length line =? 8)%nat.

(** The condition of the [elif]. *)
Definition is_data (line : string) : bool :=
  negb (line =? NL)%string && negb (contains "Time" line).

Inductive line_kind : Set := Header | Data | Skip.

Definition classify (line : string) : line_kind :=
  if is_header line then Header
  else if is_data line then Data
  else Skip.

Section Organize.

(** [float(s)]: [None] stands for its [ValueError]. *)
Variable py_float : string → option float.
(** The conversion of a [str] stored into a [float64] cell. *)
Variable np_float64 : string → option float.

Variables n_rows n_columns : Z.
Variable n_time_points : Z.

(** The body of the [if]: a header line. *)
Definition open_channel (st : state) (line : string) : result state :=
  let time_i := -1 in
  let read := drop_last line in
  g ← np_zeros3 n_rows n_columns (n_time_points + 1);
  let data_dict := <[read := g]> (data_dict st) in
  t ← np_zeros1 (n_time_points + 1);
  let time_dict := <[read := t]> (time_dict st) in
  let data_dict := alter (grid_fill nan) read data_dict in
  let time_dict := alter (vec_fill nan) read time_dict in
  Ok (State (Some time_i) (Some read) data_dict time_dict).

(** The lines from [time_split = ...] to [h = ...]: the hours of [H:M:S]. *)
Definition hours_of_timestamp (tok : string) : result float :=
  let time_split := split ":" tok in
  s2 ← py_getitem time_split 2;
  s ← or_raise ValueError (py_float s2);
  s1 ← py_getitem time_split 1;
  m1 ← or_raise ValueError (py_float s1);
  let m := (m1 + s / 60)%float in
  s0 ← py_getitem time_split 0;
  h0 ← or_raise ValueError (py_float s0);
  Ok (h0 + m / 60)%float.

(** The value on the right of an item assignment: [np.nan] or a token. *)
Inductive pyval : Type :=
  | PyFloat (v : float)
  | PyStr (s : string).

Definition pack (value : pyval) : result float :=
  match value with
  | PyFloat v => Ok v
  | PyStr s => or_raise ValueError (np_float64 s)
  end.

(** [data_dict[read][row_i, column_i, time_i] = value]: the array is
    looked up, the cell located, the value converted and stored. *)
Definition store (read : string) (row_i column_i time_i : Z) (value : pyval)
    (dd : gmap string grid) : result (gmap string grid) :=
  g ← or_raise KeyError (dd !! read);
  p ← item_pointer g row_i column_i time_i;
  v ← pack value;
  Ok (<[read := poke g p v]> dd).

(** The body of the inner [for]. *)
Definition cell (element : list string) (read : string) (time_i : Z)
    (row_i column_i : Z) (dd : gmap string grid)
  : result (gmap string grid) :=
  dd ← (if (length element =? 1)%nat
        then store read row_i column_i time_i (PyFloat nan) dd
        else Ok dd);
  tok ← py_getitem element (n_columns * row_i + 1 + 1 + column_i);
  if (tok =? "OVRFLW")%string then store read row_i column_i time_i (PyFloat nan) dd
  else
    tok ← py_getitem element (n_columns * row_i + 1 + 1 + column_i);
    store read row_i column_i time_i (PyStr tok) dd.

(** The two nested [for] loops. *)
Definition cells_loop (element : list string) (read : string) (time_i : Z)
    (dd : gmap string grid) : result (gmap string grid) :=
  for_each (range n_rows)
    (fun row_i => for_each (range n_columns) (cell element read time_i row_i))
    dd.

(** The body of the [elif]: a data row. *)
Definition data_row (st : state) (line : string) : result state :=
  let element := split TAB (strip line) in
  time_i ← or_raise UnboundLocalError (time_i st);
  let time_i := time_i + 1 in
  e0 ← py_getitem element 0;
  h ← hours_of_timestamp e0;
  read ← or_raise UnboundLocalError (read st);
  t ← or_raise KeyError (time_dict st !! read);
  t' ← vec_setitem t time_i h;
  let time_dict := <[read := t']> (time_dict st) in
  data_dict ← cells_loop element read time_i (data_dict st);
  Ok (State (Some time_i) (Some read) data_dict time_dict).

(** One iteration of the loop over the lines. *)
Definition step (line : string) (st : state) : result state :=
  if is_header line then open_channel st line
  else if is_data line then data_row st line
  else Ok st.

Definition run (lines : list string) (st : state) : result state :=
  for_each lines step st.

End Organize.

(** [Organize], on the lines of [data_file]. *)
Definition Organize (py_float np_float64 : string → option float)
    (lines : list string) (n_rows n_columns : Z)
    (total_run_time sampling_rate : float)
  : result (gmap string grid * gmap string vec) :=
  q ← float_truediv total_run_time sampling_rate;
  n_time_points ← py_int q;
  st ← run py_float np_float64 n_rows n_columns n_time_points lines init;
  Ok (data_dict st, time_dict st).

(** ** Vocabulary of the properties *)

(** The rule of the specification: a fixed prefix, or four or eight
    characters in all. *)
Definition header_rule (line : string) : Prop :=
  String.prefix "Read" line = true ∨ String.prefix "GFP" line = true ∨
  String.prefix "RFP" line = true ∨ String.prefix "600" line = true ∨
  String.prefix "Ratio" line = true ∨
  String.length line = 4%nat ∨ String.length line = 8%nat.

(** What the header branch allocates: every cell missing. *)
Definition missing_grid (R C T : Z) : grid :=
  Grid R C (T + 1) (replicate (Z.to_nat (R * C * (T + 1))) nan).

Definition missing_vec (T : Z) : vec := replicate (Z.to_nat (T + 1)) nan.

(** The value a token stands for in a cell. *)
Definition cell_value (np_float64 : string → option float) (tok : string)
  : option float :=
  if (tok =? "OVRFLW")%string then Some nan else np_float64 tok.

(** The arrays of a parse with [R] rows, [C] columns and [T] time points. *)
Definition grid_ok (R C T : Z) (g : grid) : Prop :=
  shape g = (R, C, T + 1) ∧ Z.of_nat (length (cells g)) = R * C * (T + 1) ∧
  0 ≤ R ∧ 0 ≤ C ∧ 0 ≤ T + 1.

Definition vec_ok (T : Z) (t : vec) : Prop :=
  Z.of_nat (length t) = T + 1.

Definition all_ok (R C T : Z) (dd : gmap string grid) : Prop :=
  ∀ key g, dd !! key = Some g → grid_ok R C T g.

(** Cell [(row, col)] of time point [k] holds the value of its token, the
    one at [C * row + 2 + col]. *)
Definition written (np_float64 : string → option float) (C : Z)
    (element : list string) (g : grid) (k row col : Z) : Prop :=
  ∃ tok v, element !! Z.to_nat (C * row + 2 + col) = Some tok ∧
           cell_value np_float64 tok = Some v ∧
           grid_getitem g row col k = Ok v.

(** The cells selected by [S] are written in the array of channel [r]. *)
Definition covers (np_float64 : string → option float) (R C T : Z)
    (element : list string) (r : string) (k : Z) (S : Z → Z → Prop)
    (dd : gmap string grid) : Prop :=
  ∃ g, dd !! r = Some g ∧ grid_ok R C T g ∧
       ∀ row col, 0 ≤ row < R → 0 ≤ col < C → S row col →
                  written np_float64 C element g k row col.

(** What holds of the state between two lines. *)
Record inv (R C T : Z) (st : state) : Prop := Inv {
  inv_data : all_ok R C T (data_dict st);
  inv_time : ∀ k t, time_dict st !! k = Some t → vec_ok T t;
  inv_open :
    match time_i st, read st with
    | None, None => True
    | Some i, Some r =>
        -1 ≤ i ∧ is_Some (data_dict st !! r) ∧ is_Some (time_dict st !! r)
    | _, _ => False
    end
}.

(** ** Sample files

    [decimal_literal] reads the plain numerals [ddd], [ddd.ddd]: few enough
    digits that the quotient of two exactly represented integers is the
    correctly rounded value, which is what [float()] and NumPy return on
    them.  It stands for both conversions in the sample runs below, whose
    other tokens are not numerals at all. *)

Definition digit_of (c : ascii) : option Z :=
  let n := nat_of_ascii c in
  if ((48 <=? n) && (n <=? 57))%nat then Some (Z.of_nat n - 48) else None.

Fixpoint digits_value (s : string) (acc : Z) : option Z :=
  match s with
  | EmptyString => Some acc
  | String c s' => d ← digit_of c; digits_value s' (10 * acc + d)
  end.

Definition float_of_Z (n : Z) : float := PrimFloat.of_uint63 (Uint63.of_Z n).

Definition decimal_literal (s : string) : option float :=
  match split "." s with
  | [ip] =>
      if (ip =? EmptyString)%string then None
      else n ← digits_value ip 0;
           if n <? 2 ^ 53 then Some (float_of_Z n) else None
  | [ip; fp] =>
      if (ip +:+ fp =? EmptyString)%string then None
      else n ← digits_value (ip +:+ fp) 0;
           if (n <? 2 ^ 53) && (String.length fp <=? 22)%nat
           then Some (float_of_Z n / float_of_Z (10 ^ Z.of_nat (String.length fp)))%float
           else None
  | _ => None
  end.

(** A tab-separated line with its terminator. *)
Definition tsv (toks : list string) : string :=
  String.concat (String TAB EmptyString) toks +:+ NL.

Definition sample_header : string := "600" +:+ NL.

Definition sample_row : string :=
  tsv ["00:00:00"; "A1"; "1.0"; "2.0"; "OVRFLW"; "4.0"].

Definition sample_file : list string := [sample_header; sample_row].

(** The column labels the instrument writes above the rows. *)
Definition sample_labels : string := tsv ["Time"; "A1"; "A2"; "A3"; "A4"].

(** The result of a computation that returned. *)
Definition got {A : Type} (d : A) (r : result A) : A :=
  match r with
  | Ok a => a
  | Raise _ => d
  end.

Definition sample_step (T : Z) (line : string) (st : state) : state :=
  got init (step decimal_literal decimal_literal 1 4 T line st).

(** One plate row of four wells, after the header and after the row. *)
Definition sample_open : state := sample_step 0 sample_header init.
Definition sample_read : state := sample_step 0 sample_row sample_open.

(** ** Vocabulary of the further properties *)

(** The channel [r] has an array of the right shape. *)
Definition has_grid (R C T : Z) (r : string) (dd : gmap string grid) : Prop :=
  ∃ g, dd !! r = Some g ∧ grid_ok R C T g.

(** Every cell of the row has a token, and the token has a value. *)
Definition row_complete (np_float64 : string → option float) (R C : Z)
    (element : list string) : Prop :=
  ∀ row col, 0 ≤ row < R → 0 ≤ col < C →
    ∃ tok v, element !! Z.to_nat (C * row + 2 + col) = Some tok ∧
             cell_value np_float64 tok = Some v.

(** Two arrays read the same at every time point but [k]. *)
Definition same_elsewhere (R C T k : Z) (g g' : grid) : Prop :=
  ∀ a b k', 0 ≤ a < R → 0 ≤ b < C → 0 ≤ k' < T + 1 → k' ≠ k →
            grid_getitem g' a b k' = grid_getitem g a b k'.

(** In the open channel, the time points after the current one are
    missing, in the time vector and in every well. *)
Definition unread_missing (R C T : Z) (st : state) : Prop :=
  match time_i st, read st with
  | Some i, Some r =>
      ∃ g t, data_dict st !! r = Some g ∧ time_dict st !! r = Some t ∧
             ∀ k', i < k' < T + 1 →
                   t !! Z.to_nat k' = Some nan ∧
                   ∀ a b, 0 ≤ a < R → 0 ≤ b < C →
                          grid_getitem g a b k' = Ok nan
  | _, _ => True
  end.

#[global] Instance line_kind_eq_dec : EqDecision line_kind.
Proof. solve_decision. Defined.

(** The names the header lines of a file give to its channels. *)
Definition channel_names (lines : list string) : gset string :=
  list_to_set (drop_last <$> filter (fun l => is_header l = true) lines).

(** The number of data rows among some lines. *)
Definition data_rows (lines : list string) : Z :=
  Z.of_nat (length (filter (fun l => classify l = Data) lines)).

(** Why a row does not get through the loop over the cells: a cell with
    no token, or a cell whose token has no value. *)
Definition row_failure (np_float64 : string → option float) (R C : Z)
    (element : list string) (e : exn) : Prop :=
  (e = IndexError ∧
   ∃ row col, 0 ≤ row < R ∧ 0 ≤ col < C ∧
              element !! Z.to_nat (C * row + 2 + col) = None) ∨
  (e = ValueError ∧
   ∃ row col tok, 0 ≤ row < R ∧ 0 ≤ col < C ∧
                  element !! Z.to_nat (C * row + 2 + col) = Some tok ∧
                  cell_value np_float64 tok = None).

(** Strings of whitespace, and strings with whitespace at an end. *)
Fixpoint all_space (s : string) : bool :=
  match s with
  | EmptyString => true
  | String c s' => isspace c && all_space s'
  end.

Definition starts_space (s : string) : bool :=
  match s with
  | EmptyString => false
  | String c _ => isspace c
  end.

Fixpoint ends_space (s : string) : bool :=
  match s with
  | EmptyString => false
  | String c EmptyString => isspace c
  | String _ s' => ends_space s'
  end.

(** [c in s] for a character. *)
Fixpoint has_char (c : ascii) (s : string) : bool :=
  match s with
  | EmptyString => false
  | String a s' => Ascii.eqb a c || has_char c s'
  end.

(** [sep.join(toks)] for a one-character separator. *)
Definition join (sep : ascii) (toks : list string) : string :=
  String.concat (String sep EmptyString) toks.

(** ** Blanking and normalising groups of wells

    [blank] and [normalize] build a mapping from group names to mappings
    from read titles to arrays.  The arrays are of a type [arr] left open,
    and what NumPy computes on them is a parameter, each expression of the
    source in the place where it is evaluated, since any of them can raise;
    the mappings, the lookups and their order are those of the source. *)

(** [enumerate(l)] *)
Definition enumerate {A : Type} (l : list A) : list (nat * A) :=
  zip (seq 0 (length l)) l.

Section Groups.

Variable arr : Type.

(** [x.mean(axis=1)] *)
Variable mean_axis1 : arr → result arr.
(** [m - y] *)
Variable subtract : arr → arr → result arr.
(** [np.sqrt(np.square(x.std(axis=1))/x.shape[1]
    + np.square(y.std(axis=0))/y.shape[0])] *)
Variable blank_error : arr → arr → result arr.
(** [x/(off_set + od)] *)
Variable ratio : arr → arr → result arr.
(** [np.square(e/(off_set + x))] *)
Variable rel_error : arr → arr → result arr.
(** [n*np.sqrt(a + b)] *)
Variable scale_error : arr → arr → arr → result arr.

(** The two statements of the loop over [reads] in [blank]. *)
Definition blank_read (name : string) (g b : gmap string arr) (read : string)
    (blank_data : gmap string (gmap string arr))
  : result (gmap string (gmap string arr)) :=
  d ← or_raise KeyError (blank_data !! name);
  gr ← or_raise KeyError (g !! read);
  m ← mean_axis1 gr;
  br ← or_raise KeyError (b !! read);
  v ← subtract m br;
  let blank_data := <[name := <[read := v]> d]> blank_data in
  d ← or_raise KeyError (blank_data !! name);
  gr ← or_raise KeyError (g !! read);
  br ← or_raise KeyError (b !! read);
  e ← blank_error gr br;
  Ok (<[name := <[read +:+ "_err" := e]> d]> blank_data).

(** The body of the loop over [enumerate(group_names)] in [blank]. *)
Definition blank_group (groups blanks : list (gmap string arr))
    (reads : list string) (x : nat * string)
    (blank_data : gmap string (gmap string arr))
  : result (gmap string (gmap string arr)) :=
  let blank_data := <[x.2 := ∅]> blank_data in
  g ← py_getitem groups (Z.of_nat x.1);
  b ← py_getitem blanks (Z.of_nat x.1);
  for_each reads (blank_read x.2 g b) blank_data.

Definition blank (group_names : list string)
    (groups blanks : list (gmap string arr)) (reads : list string)
  : result (gmap string (gmap string arr)) :=
  for_each (enumerate group_names) (blank_group groups blanks reads) ∅.

(** [{read: g[read]/(off_set+g['600']) for read in reads if read != '600'}] *)
Definition norm_values (g : gmap string arr) (reads : list string)
  : result (gmap string arr) :=
  for_each (filter (fun read => read ≠ "600") reads)
    (fun read c =>
       gr ← or_raise KeyError (g !! read);
       g6 ← or_raise KeyError (g !! "600");
       v ← ratio gr g6;
       Ok (<[read := v]> c))
    ∅.

(** The comprehension of the errors, read against [d], the mapping
    [norm_data[name]] as it is when the comprehension is evaluated. *)
Definition norm_errors (g d : gmap string arr) (reads : list string)
  : result (gmap string arr) :=
  for_each (filter (fun read => read ≠ "600") reads)
    (fun read c =>
       n ← or_raise KeyError (d !! read);
       ge ← or_raise KeyError (g !! (read +:+ "_err"));
       gr ← or_raise KeyError (g !! read);
       a ← rel_error ge gr;
       g6e ← or_raise KeyError (g !! "600_err");
       g6 ← or_raise KeyError (g !! "600");
       b ← rel_error g6e g6;
       v ← scale_error n a b;
       Ok (<[read +:+ "_err" := v]> c))
    ∅.

(** The body of the loop over [enumerate(group_names)] in [normalize];
    [d.update(c)] is [c ∪ d], the values of [c] coming first. *)
Definition normalize_group (groups : list (gmap string arr))
    (reads : list string) (x : nat * string)
    (norm_data : gmap string (gmap string arr))
  : result (gmap string (gmap string arr)) :=
  let norm_data := <[x.2 := ∅]> norm_data in
  g ← py_getitem groups (Z.of_nat x.1);
  if negb (contains "_err" x.2) then
    d ← or_raise KeyError (norm_data !! x.2);
    c ← norm_values g reads;
    let norm_data := <[x.2 := c ∪ d]> norm_data in
    d ← or_raise KeyError (norm_data !! x.2);
    g6 ← or_raise KeyError (g !! "600");
    let norm_data := <[x.2 := <["600" := g6]> d]> norm_data in
    d ← or_raise KeyError (norm_data !! x.2);
    c ← norm_errors g d reads;
    let norm_data := <[x.2 := c ∪ d]> norm_data in
    g6e ← or_raise KeyError (g !! "600_err");
    d ← or_raise KeyError (norm_data !! x.2);
    Ok (<[x.2 := <["600_err" := g6e]> d]> norm_data)
  else Ok norm_data.

Definition normalize (group_names : list string)
    (groups : list (gmap string arr)) (reads : list string)
  : result (gmap string (gmap string arr)) :=
  for_each (enumerate group_names) (normalize_group groups reads) ∅.

End Groups.

(** The keys [blank] gives a group: each read and its error. *)
Definition blank_keys (reads : list string) : gset string :=
  list_to_set reads ∪ list_to_set ((fun read => read +:+ "_err") <$> reads).

(** The keys [normalize] gives a group that it normalises. *)
Definition norm_keys (reads : list string) : gset string :=
  {["600"; "600_err"]} ∪
  blank_keys (filter (fun read => read ≠ "600") reads).

(** ** Sample rows and groups *)

(** A row one well short, and a row with a well that is not a number. *)
Definition sample_short_row : string := tsv ["00:00:00"; "A1"; "1.0"].
Definition sample_bad_row : string :=
  tsv ["00:00:00"; "A1"; "1.0"; "x"; "3"; "4"].

(** A row with another label and a surplus token. *)
Definition sample_other_row : string :=
  tsv ["00:00:00"; "B7"; "1.0"; "2.0"; "OVRFLW"; "4.0"; "9"].

(** A row whose timestamp lacks its seconds. *)
Definition sample_untimed_row : string :=
  tsv ["00:00"; "A1"; "1"; "2"; "3"; "4"].

(** The sample file parsed with room for three time points. *)
Definition sample_roomy : state :=
  got init (run decimal_literal decimal_literal 1 4 2 sample_file init).

(** Groups in which one number stands for each array. *)
Definition sample_mean (x : float) : result float := Ok x.
Definition sample_subtract (x y : float) : result float := Ok (x - y)%float.
Definition sample_blank_error (x y : float) : result float := Ok 0%float.
Definition sample_ratio (x od : float) : result float :=
  Ok (x / (0.5 + od))%float.
Definition sample_rel_error (e x : float) : result float :=
  Ok ((e / (0.5 + x)) * (e / (0.5 + x)))%float.
Definition sample_scale_error (n a b : float) : result float :=
  Ok (n * PrimFloat.sqrt (a + b))%float.

Definition sample_group : gmap string float :=
  list_to_map [("GFP", 8%float); ("GFP_err", 1%float);
               ("600", 2%float); ("600_err", 0.5%float)].

Definition sample_blank_group : gmap string float :=
  list_to_map [("GFP", 1%float)].

Definition sample_blanked : gmap string (gmap string float) :=
  got ∅ (blank float sample_mean sample_subtract sample_blank_error
           ["a"] [sample_group] [sample_blank_group] ["GFP"]).

Definition sample_normalized : gmap string (gmap string float) :=
  got ∅ (normalize float sample_ratio sample_rel_error sample_scale_error
           ["a"; "a_err"] [sample_group; ∅] ["GFP"; "600"]).

(** The sample file followed by the header of a second channel. *)
Definition sample_closed : state :=
  sample_step 0 ("GFP" +:+ NL) sample_read.

(** * Properties *)

(** ** The error monad *)

Lemma bind_Ok {A B : Type} (r : result A) (k : A → result B) (b : B) :
  (r ≫= k) = Ok b ↔ ∃ a, r = Ok a ∧ k a = Ok b.
Proof.
  destruct r as [a|e]; simpl; split.
  - intros H. exists a. split; [reflexivity | exact H].
  - intros (a' & [= <-] & H). exact H.
  - discriminate.
  - intros (a' & [=] & _).
Qed.

Lemma or_raise_Ok {A : Type} (e : exn) (o : option A) (a : A) :
  or_raise e o = Ok a ↔ o = Some a.
Proof. destruct o; simpl; split; congruence. Qed.

(** Peel the successful steps off a computation that returned. *)
Ltac ok_inv H :=
  repeat match type of H with
  | (_ ≫= _) = Ok _ =>
      let a := fresh "a" in
      let E := fresh "E" in
      apply bind_Ok in H; destruct H as (a & E & H); try discriminate E
  end.

Lemma for_each_app {A S : Type} (l1 l2 : list A) (body : A → S → result S)
    (s : S) :
  for_each (l1 ++ l2) body s = (s' ← for_each l1 body s; for_each l2 body s').
Proof.
  revert s. induction l1 as [|x l1 IH]; intros s; simpl; [reflexivity|].
  destruct (body x s) as [s1|e]; simpl; [apply IH | reflexivity].
Qed.

(** A property kept by every iteration that returns is kept by the loop. *)
Lemma for_each_invariant {A S : Type} (P : S → Prop) (l : list A)
    (body : A → S → result S) :
  (∀ x s s', x ∈ l → P s → body x s = Ok s' → P s') →
  ∀ s s', P s → for_each l body s = Ok s' → P s'.
Proof.
  induction l as [|x l IH]; intros Hbody s s' Hs Hrun; simpl in Hrun.
  - congruence.
  - ok_inv Hrun. eapply IH; [ | | exact Hrun].
    + intros y t t' Hy. apply Hbody. now apply list_elem_of_further.
    + eapply Hbody; [apply list_elem_of_here | exact Hs | exact E].
Qed.

Lemma elem_of_range (n i : Z) : i ∈ range n ↔ 0 ≤ i < n.
Proof.
  unfold range. rewrite list_elem_of_fmap. split.
  - intros (k & -> & Hk). apply elem_of_seq in Hk. lia.
  - intros H. exists (Z.to_nat i). split; [lia|]. apply elem_of_seq. lia.
Qed.

(** ** Strings *)

(** Comparing the slice [s[0:len(p)]] with [p] tests whether [s] starts
    with [p]. *)
Lemma slice_to_prefix (p s : string) :
  (slice_to (String.length p) s =? p)%string = String.prefix p s.
Proof.
  unfold slice_to. revert s. induction p as [|a p IH]; intros s.
  - destruct s; reflexivity.
  - destruct s as [|b s]; simpl; [reflexivity|].
    rewrite IH. destruct (ascii_dec a b) as [->|Hne].
    + now rewrite Ascii.eqb_refl.
    + destruct (Ascii.eqb_spec b a); [congruence | reflexivity].
Qed.

Lemma is_header_rule (line : string) :
  is_header line = true ↔ header_rule line.
Proof.
  unfold is_header, header_rule.
  rewrite (slice_to_prefix "Read"), (slice_to_prefix "GFP"),
    (slice_to_prefix "RFP"), (slice_to_prefix "600"),
    (slice_to_prefix "Ratio").
  rewrite !orb_true_iff, !Nat.eqb_eq. tauto.
Qed.

(** ** Line classification *)

Lemma step_classify py_float np_float64 R C T (line : string) (st : state) :
  step py_float np_float64 R C T line st =
  match classify line with
  | Header => open_channel R C T st line
  | Data => data_row py_float np_float64 R C st line
  | Skip => Ok st
  end.
Proof.
  unfold step, classify.
  destruct (is_header line); [reflexivity|].
  destruct (is_data line); reflexivity.
Qed.

Lemma classify_Header (line : string) :
  classify line = Header ↔ is_header line = true.
Proof.
  unfold classify. destruct (is_header line); [tauto|].
  destruct (is_data line); split; discriminate.
Qed.

(** C2: a line is taken as the header of a new channel exactly when it
    starts with "Read", "GFP", "RFP", "600" or "Ratio", or is four or eight
    characters long with its terminator; the parser then runs the header
    branch on it, and otherwise the data-row branch or nothing. *)
Theorem header_detection py_float np_float64 R C T (line : string) :
  (classify line = Header ↔ header_rule line) ∧
  ∀ st, step py_float np_float64 R C T line st =
        match classify line with
        | Header => open_channel R C T st line
        | Data => data_row py_float np_float64 R C st line
        | Skip => Ok st
        end.
Proof.
  split.
  - rewrite classify_Header. apply is_header_rule.
  - intros st. apply step_classify.
Qed.

(** ** Header lines *)

Lemma open_channel_ok R C T (st : state) (line : string) :
  0 ≤ R → 0 ≤ C → 0 ≤ T + 1 →
  open_channel R C T st line =
  Ok (State (Some (-1)) (Some (drop_last line))
        (<[drop_last line := missing_grid R C T]> (data_dict st))
        (<[drop_last line := missing_vec T]> (time_dict st))).
Proof.
  intros HR HC HT. unfold open_channel, np_zeros3, np_zeros1.
  assert ((R <? 0) = false) as -> by lia.
  assert ((C <? 0) = false) as -> by lia.
  assert ((T + 1 <? 0) = false) as -> by lia.
  simpl. rewrite !alter_insert_eq.
  unfold grid_fill, vec_fill, missing_grid, missing_vec; simpl.
  now rewrite !fmap_replicate.
Qed.

(** C10: the header test comes first: a line that holds "Time" (or is the
    bare terminator) but fits the header rule runs the header branch, which
    allocates the channel named by the line without its last character. *)
Theorem header_before_skip py_float np_float64 R C T (st : state)
    (line : string) :
  contains "Time" line = true ∨ line = NL →
  header_rule line →
  0 ≤ R → 0 ≤ C → 0 ≤ T + 1 →
  classify line = Header ∧
  step py_float np_float64 R C T line st =
  Ok (State (Some (-1)) (Some (drop_last line))
        (<[drop_last line := missing_grid R C T]> (data_dict st))
        (<[drop_last line := missing_vec T]> (time_dict st))).
Proof.
  intros _ Hrule HR HC HT. apply is_header_rule in Hrule.
  pose proof (proj2 (classify_Header line) Hrule) as Hc.
  split; [exact Hc|].
  rewrite step_classify, Hc. now apply open_channel_ok.
Qed.

(** ** Skipped lines *)

(** C7: a line that is the bare terminator, or that holds "Time" and is not
    a header, leaves the state as it is: the time index, the open channel
    and every stored array. *)
Theorem skip_no_change py_float np_float64 R C T (st : state)
    (line : string) :
  line = NL ∨ contains "Time" line = true →
  classify line ≠ Header →
  step py_float np_float64 R C T line st = Ok st.
Proof.
  intros Hskip Hnh. rewrite step_classify.
  unfold classify in *. destruct (is_header line); [congruence|].
  assert (is_data line = false) as ->; [|reflexivity].
  unfold is_data. destruct Hskip as [-> | ->].
  - reflexivity.
  - now rewrite andb_false_r.
Qed.

(** ** Indexing *)

Lemma norm_index_Ok (n i j : Z) :
  norm_index n i = Ok j ↔
  (0 ≤ i < n ∧ j = i) ∨ (- n ≤ i < 0 ∧ j = i + n).
Proof.
  unfold norm_index.
  destruct ((0 <=? i) && (i <? n)) eqn:E1.
  - split; [intros [= <-]; left; lia | intros [[_ ->] | [? _]]; [reflexivity | lia]].
  - destruct ((- n <=? i) && (i <? 0)) eqn:E2.
    + split; [intros [= <-]; right; lia | intros [[? _] | [_ ->]]; [lia | reflexivity]].
    + split; [discriminate | lia].
Qed.

Lemma norm_index_range (n i j : Z) : norm_index n i = Ok j → 0 ≤ j < n.
Proof. rewrite norm_index_Ok. lia. Qed.

Lemma norm_index_in_range (n i : Z) : 0 ≤ i < n → norm_index n i = Ok i.
Proof. intros H. apply norm_index_Ok. left. lia. Qed.

Lemma norm_index_past (n i : Z) : 0 ≤ n ≤ i → norm_index n i = Raise IndexError.
Proof.
  intros H. unfold norm_index.
  assert ((i <? n) = false) as -> by lia.
  assert ((i <? 0) = false) as -> by lia.
  now rewrite !andb_false_r.
Qed.

Lemma py_getitem_nonneg {A : Type} (l : list A) (i : Z) (x : A) :
  0 ≤ i → py_getitem l i = Ok x ↔ l !! Z.to_nat i = Some x.
Proof.
  intros Hi. unfold py_getitem. rewrite bind_Ok. split.
  - intros (j & Hj & Hx). apply norm_index_Ok in Hj.
    apply or_raise_Ok in Hx. destruct Hj as [[_ ->] | [? _]]; [exact Hx | lia].
  - intros Hx. exists i. split; [|now apply or_raise_Ok].
    apply norm_index_in_range. apply lookup_lt_Some in Hx. lia.
Qed.

Lemma py_getitem_past {A : Type} (l : list A) (i : Z) :
  Z.of_nat (length l) ≤ i → py_getitem l i = Raise IndexError.
Proof.
  intros Hi. unfold py_getitem. rewrite norm_index_past; [reflexivity | lia].
Qed.

Lemma vec_setitem_length (a a' : vec) (i : Z) (v : float) :
  vec_setitem a i v = Ok a' → length a' = length a.
Proof.
  unfold vec_setitem. intros H. ok_inv H. injection H as <-.
  apply length_insert.
Qed.

(** Reading back the item just assigned. *)
Lemma vec_setitem_getitem (a a' : vec) (i : Z) (v : float) :
  vec_setitem a i v = Ok a' → py_getitem a' i = Ok v.
Proof.
  unfold vec_setitem, py_getitem. intros H. ok_inv H. injection H as <-.
  rewrite length_insert, E. simpl.
  apply norm_index_range in E.
  rewrite list_lookup_insert_eq; [reflexivity | lia].
Qed.

Lemma vec_setitem_nonneg (a a' : vec) (i : Z) (v : float) :
  0 ≤ i → vec_setitem a i v = Ok a' →
  i < Z.of_nat (length a) ∧ a' = <[Z.to_nat i := v]> a.
Proof.
  intros Hi. unfold vec_setitem. intros H. ok_inv H. injection H as <-.
  apply norm_index_Ok in E. destruct E as [[? ->] | [? _]]; [|lia].
  split; [lia | reflexivity].
Qed.

Lemma split_cons (sep : ascii) (s : string) :
  ∃ tok rest, split sep s = tok :: rest.
Proof.
  destruct s as [|c s]; simpl; [eauto|].
  destruct (Ascii.eqb c sep); [eauto|].
  destruct (split sep s); eauto.
Qed.

(** ** Data rows *)

Section DataRow.

Variable py_float : string → option float.
Variable np_float64 : string → option float.
Variables R C : Z.

(** What a data row that was parsed went through. *)
Lemma data_row_Ok (st st' : state) (line : string) :
  data_row py_float np_float64 R C st line = Ok st' →
  ∃ i r tok rest h t t' dd',
    time_i st = Some i ∧ read st = Some r ∧
    split TAB (strip line) = tok :: rest ∧
    hours_of_timestamp py_float tok = Ok h ∧
    time_dict st !! r = Some t ∧
    vec_setitem t (i + 1) h = Ok t' ∧
    cells_loop np_float64 R C (tok :: rest) r (i + 1) (data_dict st) = Ok dd' ∧
    st' = State (Some (i + 1)) (Some r) dd' (<[r := t']> (time_dict st)).
Proof.
  unfold data_row. intros H.
  destruct (split_cons TAB (strip line)) as (tok & rest & Hsplit).
  rewrite Hsplit in H. ok_inv H.
  apply or_raise_Ok in E, E2, E3. injection E0 as <-. injection H as <-.
  exists a, a2, tok, rest, a1, a3, a4, a5. tauto.
Qed.

(** The conversion of a timestamp whose three fields are numerals. *)
Lemma hours_of_timestamp_fields (tok hs ms ss : string) (more : list string)
    (H M S : float) :
  split ":" tok = hs :: ms :: ss :: more →
  py_float hs = Some H → py_float ms = Some M → py_float ss = Some S →
  hours_of_timestamp py_float tok = Ok (H + (M + S / 60) / 60)%float.
Proof.
  intros Hsplit HH HM HS. unfold hours_of_timestamp. rewrite Hsplit.
  assert (∀ k x, (hs :: ms :: ss :: more) !! Z.to_nat k = Some x → 0 ≤ k →
                 py_getitem (hs :: ms :: ss :: more) k = Ok x) as Hget
    by (intros k x Hx Hk; now apply py_getitem_nonneg).
  rewrite (Hget 2 ss), (Hget 1 ms), (Hget 0 hs) by (reflexivity || lia).
  simpl. rewrite HS. simpl. rewrite HM. simpl. rewrite HH. reflexivity.
Qed.

(** C4: the time vector receives, at the new time index, the hours
    [H + (M + S/60)/60] of the timestamp [H:M:S] that starts the row, the
    sums and quotients being those of the floats; on "01:30:15" these are
    [1 + (30 + 15/60)/60] hours. *)
Theorem timestamp_hours T (st st' : state) (line : string) (i : Z)
    (r tok hs ms ss : string) (rest more : list string) (H M S : float) :
  classify line = Data →
  time_i st = Some i → read st = Some r →
  split TAB (strip line) = tok :: rest →
  split ":" tok = hs :: ms :: ss :: more →
  py_float hs = Some H → py_float ms = Some M → py_float ss = Some S →
  step py_float np_float64 R C T line st = Ok st' →
  time_i st' = Some (i + 1) ∧
  ∃ t', time_dict st' !! r = Some t' ∧
        py_getitem t' (i + 1) = Ok (H + (M + S / 60) / 60)%float.
Proof.
  intros Hdata Hi Hr Hsplit Hfields HH HM HS Hstep.
  rewrite step_classify, Hdata in Hstep.
  apply data_row_Ok in Hstep
    as (i' & r' & tok' & rest' & h & t & t' & dd' & Hi' & Hr' & Hsplit' &
        Hh & Ht & Hset & _ & ->).
  rewrite Hi in Hi'. injection Hi' as <-.
  rewrite Hr in Hr'. injection Hr' as <-.
  rewrite Hsplit in Hsplit'. injection Hsplit' as <- <-.
  rewrite (hours_of_timestamp_fields _ _ _ _ _ _ _ _ Hfields HH HM HS) in Hh.
  injection Hh as <-. simpl. split; [reflexivity|].
  exists t'. rewrite lookup_insert_eq. split; [reflexivity|].
  eapply vec_setitem_getitem, Hset.
Qed.

End DataRow.

(** ** The loop over the cells *)

(** A loop invariant indexed by the iterations already run. *)
Lemma for_each_accum {A S : Type} (P : list A → S → Prop) (l : list A)
    (body : A → S → result S) :
  (∀ done x s s', x ∈ l → P done s → body x s = Ok s' → P (done ++ [x]) s') →
  ∀ done s s', P done s → for_each l body s = Ok s' → P (done ++ l) s'.
Proof.
  induction l as [|x l IH]; intros Hbody done s s' Hs Hrun; simpl in Hrun.
  - injection Hrun as <-. now rewrite app_nil_r.
  - ok_inv Hrun.
    replace (done ++ x :: l) with ((done ++ [x]) ++ l)
      by now rewrite <- app_assoc.
    eapply IH; [ | | exact Hrun].
    + intros d y t t' Hy. apply Hbody. now apply list_elem_of_further.
    + eapply Hbody; [apply list_elem_of_here | exact Hs | exact E].
Qed.

Lemma poke_ok R C T (g : grid) (p : nat) (v : float) :
  grid_ok R C T g → grid_ok R C T (poke g p v).
Proof.
  unfold grid_ok, poke, shape; simpl. now rewrite length_insert.
Qed.

(** Two cells of one time point lie at different places of the buffer. *)
Lemma flat_index_inj (C T1 r1 c1 r2 c2 k : Z) :
  0 ≤ r1 → 0 ≤ r2 → 0 ≤ c1 < C → 0 ≤ c2 < C → 0 ≤ k < T1 →
  (r1 * C + c1) * T1 + k = (r2 * C + c2) * T1 + k →
  r1 = r2 ∧ c1 = c2.
Proof.
  intros Hr1 Hr2 Hc1 Hc2 Hk Heq.
  assert (r1 * C + c1 = r2 * C + c2) as Hrc by nia.
  assert (r1 = r2) as -> by nia.
  split; [reflexivity | lia].
Qed.

Lemma item_pointer_in_range R C T (g : grid) (i j k : Z) :
  grid_ok R C T g → 0 ≤ i < R → 0 ≤ j < C → 0 ≤ k < T + 1 →
  item_pointer g i j k = Ok (Z.to_nat ((i * C + j) * (T + 1) + k)) ∧
  (Z.to_nat ((i * C + j) * (T + 1) + k) < length (cells g))%nat.
Proof.
  intros ([= H0 H1 H2] & Hlen & _) Hi Hj Hk.
  unfold item_pointer, flat_index. rewrite H0, H1, H2.
  rewrite !norm_index_in_range by assumption. simpl.
  split; [reflexivity|].
  assert (0 ≤ i * C + j ≤ R * C - 1) as Hij by nia.
  assert (0 ≤ (i * C + j) * (T + 1) + k < R * C * (T + 1)) by nia.
  lia.
Qed.

Section Cells.

Variable np_float64 : string → option float.
Variables R C T : Z.
Variable element : list string.
Variable r : string.
Variable k : Z.

Lemma store_Ok (i j : Z) (value : pyval) (dd dd' : gmap string grid) :
  store np_float64 r i j k value dd = Ok dd' →
  ∃ g p v, dd !! r = Some g ∧ item_pointer g i j k = Ok p ∧
           pack np_float64 value = Ok v ∧ dd' = <[r := poke g p v]> dd.
Proof.
  unfold store. intros H. ok_inv H. apply or_raise_Ok in E.
  injection H as <-. eauto 10.
Qed.

(** An iteration that returns has stored the value of its token. *)
Lemma cell_Ok (row col : Z) (dd dd' : gmap string grid) :
  0 ≤ C → 0 ≤ row → 0 ≤ col →
  cell np_float64 C element r k row col dd = Ok dd' →
  ∃ g p tok v,
    dd !! r = Some g ∧ item_pointer g row col k = Ok p ∧
    element !! Z.to_nat (C * row + 2 + col) = Some tok ∧
    cell_value np_float64 tok = Some v ∧
    dd' = <[r := poke g p v]> dd.
Proof.
  intros HC Hrow Hcol. unfold cell.
  replace (C * row + 1 + 1 + col) with (C * row + 2 + col) by lia.
  assert (0 ≤ C * row + 2 + col) as Hidx by nia.
  destruct (length element =? 1)%nat eqn:Hone.
  - apply Nat.eqb_eq in Hone.
    rewrite (py_getitem_past element) by nia.
    intros H. ok_inv H.
  - simpl. intros H. ok_inv H.
    pose proof E as Htok. apply py_getitem_nonneg in Htok; [|exact Hidx].
    unfold cell_value.
    destruct (a =? "OVRFLW")%string eqn:Hov.
    + apply store_Ok in H as (g & p & v & Hg & Hp & [= <-] & ->).
      exists g, p, a, nan. now rewrite Hov.
    + ok_inv H. rewrite E in E0. injection E0 as <-.
      apply store_Ok in H as (g & p & v & Hg & Hp & Hv & ->).
      simpl in Hv. apply or_raise_Ok in Hv.
      exists g, p, a, v. now rewrite Hov.
Qed.

Lemma cell_all_ok (row col : Z) (dd dd' : gmap string grid) :
  0 ≤ C → 0 ≤ row → 0 ≤ col →
  cell np_float64 C element r k row col dd = Ok dd' →
  all_ok R C T dd →
  all_ok R C T dd' ∧ ∀ key, is_Some (dd !! key) → is_Some (dd' !! key).
Proof.
  intros HC Hrow Hcol Hcell Hok.
  apply cell_Ok in Hcell as (g & p & tok & v & Hg & _ & _ & _ & ->);
    [|assumption..].
  split.
  - intros key g'. rewrite lookup_insert. case_decide as Hkey.
    + intros [= <-]. eapply poke_ok, Hok, Hg.
    + apply Hok.
  - intros key. rewrite lookup_insert_is_Some. destruct (decide (r = key)); auto.
Qed.

Lemma cells_loop_all_ok (dd dd' : gmap string grid) :
  cells_loop np_float64 R C element r k dd = Ok dd' →
  all_ok R C T dd →
  all_ok R C T dd' ∧ ∀ key, is_Some (dd !! key) → is_Some (dd' !! key).
Proof.
  intros Hloop Hok. unfold cells_loop in Hloop.
  pose (P := fun d : gmap string grid =>
    all_ok R C T d ∧ ∀ key, is_Some (dd !! key) → is_Some (d !! key)).
  assert (P dd) as HP by (split; [exact Hok | auto]).
  revert Hloop. apply (for_each_invariant P); [|exact HP].
  intros row d d' Hrow Hd. apply elem_of_range in Hrow.
  apply (for_each_invariant P); [|exact Hd].
  intros col e e' Hcol [He1 He2] Hcell. apply elem_of_range in Hcol.
  apply cell_all_ok in Hcell as [H1 H2]; [|lia..|exact He1].
  split; [exact H1 | auto].
Qed.

Lemma grid_getitem_poke_same (g : grid) (i j : Z) (p : nat) (v : float) :
  item_pointer g i j k = Ok p → (p < length (cells g))%nat →
  grid_getitem (poke g p v) i j k = Ok v.
Proof.
  intros Hp Hlt. unfold grid_getitem.
  change (item_pointer (poke g p v) i j k) with (item_pointer g i j k).
  rewrite Hp. simpl. now rewrite list_lookup_insert_eq.
Qed.

Lemma grid_getitem_poke_other (g : grid) (i j : Z) (p q : nat) (v : float) :
  item_pointer g i j k = Ok q → p ≠ q →
  grid_getitem (poke g p v) i j k = grid_getitem g i j k.
Proof.
  intros Hq Hne. unfold grid_getitem.
  change (item_pointer (poke g p v) i j k) with (item_pointer g i j k).
  rewrite Hq. simpl. now rewrite list_lookup_insert_ne.
Qed.

Lemma covers_weaken (S S' : Z → Z → Prop) (dd : gmap string grid) :
  (∀ row col, 0 ≤ row < R → 0 ≤ col < C → S' row col → S row col) →
  covers np_float64 R C T element r k S dd → covers np_float64 R C T element r k S' dd.
Proof.
  intros Himp (g & Hg & Hok & Hw). exists g. split; [exact Hg|].
  split; [exact Hok|]. intros row col Hrow Hcol HS. apply Hw; auto.
Qed.

(** One iteration adds its cell to those written, and disturbs none. *)
Lemma cell_covers (S : Z → Z → Prop) (row col : Z)
    (dd dd' : gmap string grid) :
  0 ≤ row < R → 0 ≤ col < C → 0 ≤ k < T + 1 →
  covers np_float64 R C T element r k S dd →
  cell np_float64 C element r k row col dd = Ok dd' →
  covers np_float64 R C T element r k (fun a b => S a b ∨ (a = row ∧ b = col)) dd'.
Proof.
  intros Hrow Hcol Hk (g & Hg & Hok & Hw) Hcell.
  apply cell_Ok in Hcell as (g' & p & tok & v & Hg' & Hp & Htok & Hv & ->);
    [|lia..].
  rewrite Hg in Hg'. injection Hg' as <-.
  destruct (item_pointer_in_range R C T g row col k Hok Hrow Hcol Hk)
    as [Hp' Hlt].
  rewrite Hp in Hp'. injection Hp' as ->.
  exists (poke g (Z.to_nat ((row * C + col) * (T + 1) + k)) v).
  rewrite lookup_insert_eq. split; [reflexivity|].
  split; [now apply poke_ok|].
  intros a b Ha Hb HS.
  destruct (decide (a = row ∧ b = col)) as [[-> ->] | Hne].
  - exists tok, v. split; [exact Htok|]. split; [exact Hv|].
    now apply grid_getitem_poke_same.
  - destruct HS as [HS | HS]; [|tauto].
    destruct (Hw a b Ha Hb HS) as (tok0 & v0 & Htok0 & Hv0 & Hget).
    exists tok0, v0. split; [exact Htok0|]. split; [exact Hv0|].
    destruct (item_pointer_in_range R C T g a b k Hok Ha Hb Hk) as [Hq _].
    rewrite (grid_getitem_poke_other _ _ _ _ _ _ Hq); [exact Hget|].
    intros Heq. apply Hne.
    apply (flat_index_inj C (T + 1) a b row col k); try lia.
    assert (0 ≤ a * C + b) by nia. assert (0 ≤ row * C + col) by nia.
    assert (0 ≤ (a * C + b) * (T + 1)) by nia.
    assert (0 ≤ (row * C + col) * (T + 1)) by nia.
    lia.
Qed.

(** The loops write the cell of every row and column. *)
Lemma cells_loop_covers (dd dd' : gmap string grid) :
  0 ≤ k < T + 1 →
  covers np_float64 R C T element r k (fun _ _ => False) dd →
  cells_loop np_float64 R C element r k dd = Ok dd' →
  covers np_float64 R C T element r k (fun _ _ => True) dd'.
Proof.
  intros Hk Hdd Hloop. unfold cells_loop in Hloop.
  pose (P := fun (done : list Z) (d : gmap string grid) =>
    covers np_float64 R C T element r k (fun a _ => a ∈ done) d).
  assert (P (range R) dd') as Hall.
  { change (range R) with ([] ++ range R).
    revert Hloop. apply (for_each_accum P).
    - intros done row d d' Hrow Hd Hinner. apply elem_of_range in Hrow.
      pose (Q := fun (cs : list Z) (e : gmap string grid) =>
        covers np_float64 R C T element r k (fun a b => a ∈ done ∨ (a = row ∧ b ∈ cs)) e).
      assert (Q (range C) d') as HQ.
      { change (range C) with ([] ++ range C).
        revert Hinner. apply (for_each_accum Q).
        - intros cs col e e' Hcol He Hcell. apply elem_of_range in Hcol.
          eapply covers_weaken;
            [|eapply (cell_covers _ row col); [done..|exact He|exact Hcell]].
          simpl. intros a b _ _ [Ha | [-> Hb]]; [tauto|].
          apply elem_of_app in Hb as [Hb | Hb%list_elem_of_singleton];
            [tauto | subst; tauto].
        - eapply covers_weaken; [|exact Hd].
          simpl. intros a b _ _ [Ha | [_ Hb]]; [exact Ha|].
          now apply elem_of_nil in Hb. }
      eapply covers_weaken; [|exact HQ].
      simpl. intros a b _ Hb Ha.
      apply elem_of_app in Ha as [Ha | Ha%list_elem_of_singleton];
        [tauto|]. right. split; [exact Ha | now apply elem_of_range].
    - eapply covers_weaken; [|exact Hdd].
      simpl. intros a b _ _ Ha. now apply elem_of_nil in Ha. }
  eapply covers_weaken; [|exact Hall].
  simpl. intros a b Ha _ _. now apply elem_of_range.
Qed.

End Cells.

(** ** The state between two lines *)

Lemma missing_grid_ok R C T :
  0 ≤ R → 0 ≤ C → 0 ≤ T + 1 → grid_ok R C T (missing_grid R C T).
Proof.
  intros HR HC HT. unfold grid_ok, missing_grid, shape; simpl.
  rewrite length_replicate. split; [reflexivity|].
  split; [|lia]. assert (0 ≤ R * C * (T + 1)) by nia. lia.
Qed.

Lemma missing_vec_ok T : 0 ≤ T + 1 → vec_ok T (missing_vec T).
Proof.
  intros HT. unfold vec_ok, missing_vec. rewrite length_replicate. lia.
Qed.

(** A header branch that returns was given dimensions NumPy accepts. *)
Lemma open_channel_dims R C T (st st' : state) (line : string) :
  open_channel R C T st line = Ok st' → 0 ≤ R ∧ 0 ≤ C ∧ 0 ≤ T + 1.
Proof.
  unfold open_channel, np_zeros3, np_zeros1. intros H.
  destruct (R <? 0) eqn:HR; [discriminate H|].
  destruct (C <? 0) eqn:HC; [discriminate H|].
  destruct (T + 1 <? 0) eqn:HT; [discriminate H|]. lia.
Qed.

Lemma inv_init R C T : inv R C T init.
Proof.
  split; simpl; [| |exact I].
  - intros key g Hg. now rewrite lookup_empty in Hg.
  - intros key t Ht. now rewrite lookup_empty in Ht.
Qed.

Section Invariant.

Variable py_float : string → option float.
Variable np_float64 : string → option float.
Variables R C T : Z.

Lemma inv_open_channel (st st' : state) (line : string) :
  inv R C T st → open_channel R C T st line = Ok st' → inv R C T st'.
Proof.
  intros [Hd Ht _] Hopen.
  destruct (open_channel_dims _ _ _ _ _ _ Hopen) as (HR & HC & HT).
  rewrite open_channel_ok in Hopen by assumption. injection Hopen as <-.
  split; simpl.
  - intros key g. rewrite lookup_insert. case_decide.
    + intros [= <-]. now apply missing_grid_ok.
    + apply Hd.
  - intros key t. rewrite lookup_insert. case_decide.
    + intros [= <-]. now apply missing_vec_ok.
    + apply Ht.
  - rewrite !lookup_insert_eq. split; [lia|]. split; eexists; reflexivity.
Qed.

Lemma inv_data_row (st st' : state) (line : string) :
  inv R C T st → data_row py_float np_float64 R C st line = Ok st' →
  inv R C T st'.
Proof.
  intros [Hd Ht Ho] Hrow.
  apply data_row_Ok in Hrow
    as (i & r & tok & rest & h & t & t' & dd' & Hi & Hr & _ & _ & Htr &
        Hset & Hloop & ->).
  rewrite Hi, Hr in Ho. destruct Ho as (Hi1 & Hdr & _).
  apply (cells_loop_all_ok _ R C T) in Hloop as [Hok Hdom]; [|exact Hd].
  split; simpl.
  - exact Hok.
  - intros key u. rewrite lookup_insert. case_decide.
    + intros [= <-]. unfold vec_ok.
      rewrite (vec_setitem_length _ _ _ _ Hset). eapply Ht, Htr.
    + apply Ht.
  - rewrite lookup_insert_eq. split; [lia|]. split; [auto | eexists; reflexivity].
Qed.

Lemma inv_step (st st' : state) (line : string) :
  inv R C T st → step py_float np_float64 R C T line st = Ok st' →
  inv R C T st'.
Proof.
  intros Hinv. rewrite step_classify. destruct (classify line).
  - now apply inv_open_channel.
  - now apply inv_data_row.
  - now intros [= <-].
Qed.

(** Every state the parser reaches satisfies the invariant. *)
Lemma inv_run (lines : list string) (st : state) :
  run py_float np_float64 R C T lines init = Ok st → inv R C T st.
Proof.
  unfold run. apply (for_each_invariant (inv R C T)); [|apply inv_init].
  intros line s s' _. apply inv_step.
Qed.

Lemma run_app (l1 l2 : list string) (st : state) :
  run py_float np_float64 R C T (l1 ++ l2) st =
  (st' ← run py_float np_float64 R C T l1 st;
   run py_float np_float64 R C T l2 st').
Proof. apply for_each_app. Qed.

(** C1: after a data row is parsed on an open channel, every cell
    [(row, col)] of the grid at the new time index holds the value of the
    token at [C * row + 2 + col] of the row, stripped as the parser does and
    split at its tabs: missing for "OVRFLW", the number the token reads as
    otherwise. *)
Theorem cell_from_token (pre : list string) (st st' : state) (line : string)
    (i : Z) (r : string) (row col : Z) :
  run py_float np_float64 R C T pre init = Ok st →
  time_i st = Some i → read st = Some r →
  classify line = Data →
  step py_float np_float64 R C T line st = Ok st' →
  0 ≤ row < R → 0 ≤ col < C →
  ∃ g tok,
    data_dict st' !! r = Some g ∧
    split TAB (strip line) !! Z.to_nat (C * row + 2 + col) = Some tok ∧
    ((tok = "OVRFLW" ∧ grid_getitem g row col (i + 1) = Ok nan) ∨
     (tok ≠ "OVRFLW" ∧
      ∃ v, np_float64 tok = Some v ∧ grid_getitem g row col (i + 1) = Ok v)).
Proof.
  intros Hpre Hi Hr Hdata Hstep Hrow Hcol.
  apply inv_run in Hpre as [Hd Ht Ho].
  rewrite step_classify, Hdata in Hstep.
  apply data_row_Ok in Hstep
    as (i' & r' & tok0 & rest & h & t & t' & dd' & Hi' & Hr' & Hsplit & _ &
        Htr & Hset & Hloop & ->).
  rewrite Hi in Hi'. injection Hi' as <-.
  rewrite Hr in Hr'. injection Hr' as <-.
  rewrite Hi, Hr in Ho. destruct Ho as (Hi1 & [g0 Hg0] & _).
  apply vec_setitem_nonneg in Hset as [Hlt _]; [|lia].
  pose proof (Ht _ _ Htr) as Hlen. unfold vec_ok in Hlen.
  apply (cells_loop_covers _ R C T) in Hloop; [|lia|].
  - destruct Hloop as (g & Hg & _ & Hw).
    destruct (Hw row col Hrow Hcol I) as (tok & v & Htok & Hv & Hget).
    exists g, tok. simpl. split; [exact Hg|].
    rewrite Hsplit. split; [exact Htok|].
    unfold cell_value in Hv. destruct (String.eqb_spec tok "OVRFLW") as [Heq|Hne].
    + left. injection Hv as <-. tauto.
    + right. split; [exact Hne|]. now exists v.
  - exists g0. split; [exact Hg0|]. split; [eapply Hd, Hg0|]. tauto.
Qed.

End Invariant.

(** ** The number of time points *)

(** Rounding keeps the sign it is given. *)
Lemma binary_round_aux_sign (m e : Z) (l : location) :
  match binary_round_aux prec emax false m e l with
  | S754_finite s _ _ => s = false
  | _ => True
  end.
Proof.
  unfold binary_round_aux.
  destruct (shr_fexp prec emax m e l) as [mrs' e'].
  destruct (shr_fexp prec emax _ e' loc_Exact) as [mrs'' e''].
  destruct (shr_m mrs''); [exact I | | exact I].
  destruct (e'' <=? emax - prec); [reflexivity | exact I].
Qed.

Lemma SFltb_zero_pos (x : spec_float) :
  SFltb (S754_zero false) x = true →
  x = S754_infinity false ∨ ∃ m e, x = S754_finite false m e.
Proof.
  destruct x as [s|s| |s m e]; try destruct s; try discriminate; eauto.
Qed.

(** The quotient of two positive floats is not negative. *)
Lemma div_pos_sign (x y : float) :
  (0 <? x)%float = true → (0 <? y)%float = true →
  match Prim2SF (x / y) with
  | S754_finite s _ _ => s = false
  | _ => True
  end.
Proof.
  rewrite !FloatAxioms.ltb_spec, FloatAxioms.div_spec.
  change (Prim2SF 0) with (S754_zero false).
  intros Hx Hy.
  apply SFltb_zero_pos in Hx as [-> | (mx & ex & ->)];
    apply SFltb_zero_pos in Hy as [-> | (my & ey & ->)];
    try exact I.
  unfold SF64div, SFdiv.
  destruct (SFdiv_core_binary prec emax (Z.pos mx) ex (Z.pos my) ey)
    as [[mz ez] lz].
  apply binary_round_aux_sign.
Qed.

(** On a float that is not negative, [int] is the floor. *)
Lemma py_int_floor (x y : float) (n : Z) :
  (0 <? x)%float = true → (0 <? y)%float = true →
  py_int (x / y) = Ok n → float_floor (x / y) = Some n.
Proof.
  intros Hx Hy. pose proof (div_pos_sign x y Hx Hy) as Hs.
  unfold py_int, float_floor.
  destruct (Prim2SF (x / y)) as [s|s| |s m e]; try discriminate.
  - congruence.
  - subst s. simpl. congruence.
Qed.

Lemma float_truediv_Ok (x y q : float) :
  float_truediv x y = Ok q → q = (x / y)%float.
Proof.
  unfold float_truediv. destruct (PrimFloat.eqb y 0); [discriminate|].
  now intros [= <-].
Qed.

(** ** The whole parse *)

Section Parse.

Variable py_float : string → option float.
Variable np_float64 : string → option float.
Variables R C : Z.

(** C3: with [T] the floor of [total_run_time / sampling_rate], both
    positive, every grid that [Organize] returns has shape [(R, C, T + 1)]
    and every time vector has length [T + 1]. *)
Theorem returned_shapes (lines : list string)
    (total_run_time sampling_rate : float)
    (dd : gmap string grid) (td : gmap string vec) :
  (0 <? total_run_time)%float = true →
  (0 <? sampling_rate)%float = true →
  Organize py_float np_float64 lines R C total_run_time sampling_rate
    = Ok (dd, td) →
  ∃ T, float_floor (total_run_time / sampling_rate) = Some T ∧
       (∀ key g, dd !! key = Some g →
                 shape g = (R, C, T + 1) ∧
                 Z.of_nat (length (cells g)) = R * C * (T + 1)) ∧
       (∀ key t, td !! key = Some t → Z.of_nat (length t) = T + 1).
Proof.
  intros Hrt Hsr Hrun. unfold Organize in Hrun. ok_inv Hrun.
  injection Hrun as <- <-.
  apply float_truediv_Ok in E as ->.
  exists a0. split; [now apply py_int_floor|].
  apply inv_run in E1 as [Hd Ht _]. split.
  - intros key g Hg. destruct (Hd key g Hg) as (Hshape & Hlen & _). tauto.
  - intros key t Hkey. exact (Ht key t Hkey).
Qed.

Variable T : Z.

Lemma py_getitem_head {A : Type} (x : A) (l : list A) :
  py_getitem (x :: l) 0 = Ok x.
Proof. apply py_getitem_nonneg; [lia | reflexivity]. Qed.

(** C5: a header line, whether its name is new or not, leaves the channel
    it names with a grid and a time vector of missing values only and the
    time index at -1, whatever was stored under that name before; the data
    row that follows is written at time index 0. *)
Theorem header_resets (st : state) (line : string) :
  classify line = Header →
  0 ≤ R → 0 ≤ C → 0 ≤ T + 1 →
  ∃ st',
    step py_float np_float64 R C T line st = Ok st' ∧
    time_i st' = Some (-1) ∧ read st' = Some (drop_last line) ∧
    data_dict st' !! drop_last line = Some (missing_grid R C T) ∧
    time_dict st' !! drop_last line = Some (missing_vec T) ∧
    Forall (eq nan) (cells (missing_grid R C T)) ∧
    Forall (eq nan) (missing_vec T) ∧
    ∀ line2 st2,
      classify line2 = Data → step py_float np_float64 R C T line2 st' = Ok st2 →
      time_i st2 = Some 0 ∧
      ∃ tok rest h,
        split TAB (strip line2) = tok :: rest ∧
        hours_of_timestamp py_float tok = Ok h ∧
        time_dict st2 !! drop_last line
          = Some (<[0%nat := h]> (missing_vec T)).
Proof.
  intros Hh HR HC HT. eexists. rewrite step_classify, Hh.
  split; [now apply open_channel_ok|]. simpl.
  rewrite !lookup_insert_eq. do 4 (split; [reflexivity|]).
  split; [apply Forall_replicate; reflexivity|].
  split; [apply Forall_replicate; reflexivity|].
  intros line2 st2 Hd Hstep. rewrite step_classify, Hd in Hstep.
  apply data_row_Ok in Hstep
    as (i & r & tok & rest & h & t & t' & dd' & Hi & Hr & Hsplit & Hhr &
        Htr & Hset & _ & ->).
  simpl in Hi, Hr, Htr. injection Hi as <-. injection Hr as <-.
  rewrite lookup_insert_eq in Htr. injection Htr as <-.
  apply vec_setitem_nonneg in Hset as [_ ->]; [|lia]. simpl.
  split; [reflexivity|]. exists tok, rest, h.
  now rewrite lookup_insert_eq.
Qed.

Lemma data_row_unbound (st : state) (line : string) :
  time_i st = None →
  data_row py_float np_float64 R C st line = Raise UnboundLocalError.
Proof. intros H. unfold data_row. now rewrite H. Qed.

Lemma run_skipped (skipped : list string) (st : state) :
  Forall (fun l => classify l = Skip) skipped → run py_float np_float64 R C T skipped st = Ok st.
Proof.
  induction 1 as [|l ls Hl _ IH]; [reflexivity|].
  unfold run in *. cbn [for_each]. rewrite step_classify, Hl. exact IH.
Qed.

Lemma run_Raise (line : string) (rest : list string) (st : state) (e : exn) :
  step py_float np_float64 R C T line st = Raise e → run py_float np_float64 R C T (line :: rest) st = Raise e.
Proof. intros H. unfold run. cbn [for_each]. now rewrite H. Qed.

(** A data row met at the last allocated time index, or beyond. *)
Lemma data_row_past (st : state) (line : string) (i : Z) :
  inv R C T st → time_i st = Some i → T ≤ i →
  (∃ e, data_row py_float np_float64 R C st line = Raise e) ∧
  ∀ tok rest h,
    split TAB (strip line) = tok :: rest →
    hours_of_timestamp py_float tok = Ok h →
    data_row py_float np_float64 R C st line = Raise IndexError.
Proof.
  intros [_ Ht Ho] Hi HT. rewrite Hi in Ho.
  destruct (read st) as [r|] eqn:Hr; [|contradiction].
  destruct Ho as (Hi1 & _ & [t Htr]).
  pose proof (Ht _ _ Htr) as Hlen. unfold vec_ok in Hlen.
  assert (∀ tok rest h,
    split TAB (strip line) = tok :: rest →
    hours_of_timestamp py_float tok = Ok h →
    data_row py_float np_float64 R C st line = Raise IndexError) as Hok.
  { intros tok rest h Hsplit Hh. unfold data_row.
    rewrite Hsplit, Hi, py_getitem_head. simpl. rewrite Hh, Hr. simpl.
    rewrite Htr. simpl. unfold vec_setitem.
    rewrite norm_index_past by lia. reflexivity. }
  split; [|exact Hok].
  destruct (split_cons TAB (strip line)) as (tok & rest & Hsplit).
  destruct (hours_of_timestamp py_float tok) as [h|e] eqn:Hh.
  - exists IndexError. eapply Hok; eassumption.
  - exists e. unfold data_row.
    rewrite Hsplit, Hi, py_getitem_head. simpl. now rewrite Hh.
Qed.

End Parse.

(** ** Parses that fail *)

Section Failures.

Variable py_float : string → option float.
Variable np_float64 : string → option float.
Variables R C : Z.

Lemma Organize_run_Raise (lines : list string)
    (total_run_time sampling_rate : float) :
  (∀ T, ∃ e, run py_float np_float64 R C T lines init = Raise e) →
  ∃ e, Organize py_float np_float64 lines R C total_run_time sampling_rate
       = Raise e.
Proof.
  intros Hrun. unfold Organize.
  destruct (float_truediv total_run_time sampling_rate) as [q|e]; simpl;
    [|eauto].
  destruct (py_int q) as [T|e]; simpl; [|eauto].
  destruct (Hrun T) as [e ->]. simpl. eauto.
Qed.

(** C8: when the first line that is not skipped is a data row, no channel
    being open yet, the parse raises and returns nothing. *)
Theorem data_before_header (skipped rest : list string) (line : string)
    (total_run_time sampling_rate : float) :
  Forall (fun l => classify l = Skip) skipped →
  classify line = Data →
  (∀ T, run py_float np_float64 R C T (skipped ++ line :: rest) init
        = Raise UnboundLocalError) ∧
  ∃ e, Organize py_float np_float64 (skipped ++ line :: rest) R C
         total_run_time sampling_rate = Raise e.
Proof.
  intros Hskip Hdata.
  assert (∀ T, run py_float np_float64 R C T (skipped ++ line :: rest) init
               = Raise UnboundLocalError) as Hrun.
  { intros T. rewrite run_app, run_skipped by exact Hskip. simpl.
    apply run_Raise. rewrite step_classify, Hdata.
    now apply data_row_unbound. }
  split; [exact Hrun|].
  apply Organize_run_Raise. intros T. eauto.
Qed.

(** C9: a data row that comes when the time index has reached the last
    allocated one makes the parse raise, with an [IndexError] from the time
    vector once its timestamp has been converted; the row is neither
    dropped nor wrapped around. *)
Theorem rows_past_capacity (pre post : list string) (line : string)
    (total_run_time sampling_rate q : float) (T : Z) (st : state) (i : Z) :
  float_truediv total_run_time sampling_rate = Ok q →
  py_int q = Ok T →
  run py_float np_float64 R C T pre init = Ok st →
  time_i st = Some i → T ≤ i →
  classify line = Data →
  (∃ e, Organize py_float np_float64 (pre ++ line :: post) R C
          total_run_time sampling_rate = Raise e) ∧
  ∀ tok rest h,
    split TAB (strip line) = tok :: rest →
    hours_of_timestamp py_float tok = Ok h →
    Organize py_float np_float64 (pre ++ line :: post) R C
      total_run_time sampling_rate = Raise IndexError.
Proof.
  intros Hq HT Hpre Hi Hcap Hdata.
  pose proof (inv_run _ _ _ _ _ _ _ Hpre) as Hinv.
  destruct (data_row_past py_float np_float64 R C T st line i Hinv Hi Hcap)
    as [[e He] Hidx].
  assert (∀ e',
    data_row py_float np_float64 R C st line = Raise e' →
    Organize py_float np_float64 (pre ++ line :: post) R C
      total_run_time sampling_rate = Raise e') as Hfail.
  { intros e' He'. unfold Organize. rewrite Hq. simpl. rewrite HT. simpl.
    rewrite run_app, Hpre. simpl.
    erewrite run_Raise; [reflexivity|].
    rewrite step_classify, Hdata. exact He'. }
  split.
  - exists e. now apply Hfail.
  - intros tok rest h Hsplit Hh. apply Hfail. eapply Hidx; eassumption.
Qed.

Lemma range_pos (n : Z) : 0 < n → ∃ l, range n = 0 :: l.
Proof.
  intros Hn. unfold range.
  destruct (Z.to_nat n) as [|k] eqn:E; [lia|]. simpl. eauto.
Qed.

Lemma cell_one_token (element : list string) (r : string) (k : Z)
    (dd : gmap string grid) :
  0 < C → length element = 1%nat →
  ∃ e, cell np_float64 C element r k 0 0 dd = Raise e.
Proof.
  intros HC Hone. unfold cell. rewrite Hone. simpl.
  destruct (store np_float64 r 0 0 k (PyFloat nan) dd) as [dd1|e]; simpl;
    [|eauto].
  rewrite py_getitem_past by (rewrite Hone; lia). simpl. eauto.
Qed.

(** A row of a single token never gets through the loop over the cells:
    the token of the first cell is looked up past the end of the row. *)
Lemma one_token_row_raises (st : state) (line : string) :
  0 < R → 0 < C →
  length (split TAB (strip line)) = 1%nat →
  ∃ e, data_row py_float np_float64 R C st line = Raise e.
Proof.
  intros HR HC Hone. unfold data_row.
  set (element := split TAB (strip line)) in *.
  destruct (or_raise UnboundLocalError (time_i st)) as [i|e]; simpl; [|eauto].
  destruct (py_getitem element 0) as [e0|e]; simpl; [|eauto].
  destruct (hours_of_timestamp py_float e0) as [h|e]; simpl; [|eauto].
  destruct (or_raise UnboundLocalError (read st)) as [r|e]; simpl; [|eauto].
  destruct (or_raise KeyError (time_dict st !! r)) as [t|e]; simpl; [|eauto].
  destruct (vec_setitem t (i + 1) h) as [t'|e]; simpl; [|eauto].
  assert (∃ e, cells_loop np_float64 R C element r (i + 1) (data_dict st)
               = Raise e) as [e ->]; [|simpl; eauto].
  unfold cells_loop.
  destruct (range_pos R HR) as [rows ->].
  destruct (range_pos C HC) as [cols ->].
  cbn [for_each].
  destruct (cell_one_token element r (i + 1) (data_dict st) HC Hone)
    as [e ->].
  simpl. eauto.
Qed.

End Failures.

(** C6: a data row of one token, here the second line of a file of one
    channel with one well, makes the parse raise [IndexError]; no cell is
    left holding a value, missing or not, since nothing is returned. *)
Theorem one_token_row_fails :
  Organize decimal_literal decimal_literal
    ["600" +:+ NL; "00:00:00" +:+ NL] 1 1 1 1 = Raise IndexError.
Proof. vm_compute. reflexivity. Qed.

(** ** The properties on the sample file *)

(** The sample file parses to the grid [[1, 2, missing, 4]] at time 0. *)
Example sample_file_grid :
  data_dict (got init (run decimal_literal decimal_literal 1 4 0
                         sample_file init)) !! "600"
  = Some (Grid 1 4 1 [1; 2; nan; 4]%float).
Proof. vm_compute. reflexivity. Qed.

Example sample_file_times :
  time_dict (got init (run decimal_literal decimal_literal 1 4 0
                         sample_file init)) !! "600"
  = Some [0%float].
Proof. vm_compute. reflexivity. Qed.

Example sample_file_returns :
  ∃ out, Organize decimal_literal decimal_literal sample_file 1 4 0 0.5
         = Ok out.
Proof. eexists. vm_compute. reflexivity. Qed.

Example strip_then_split :
  split TAB (strip sample_row)
  = ["00:00:00"; "A1"; "1.0"; "2.0"; "OVRFLW"; "4.0"].
Proof. reflexivity. Qed.

Example int_truncates :
  py_int (-1.5)%float = Ok (-1) ∧ py_int 2.75%float = Ok 2 ∧
  float_floor (-1.5)%float = Some (-2).
Proof. repeat split; reflexivity. Qed.

Lemma cell_from_token_witness :
  ∃ g tok,
    data_dict sample_read !! "600" = Some g ∧
    split TAB (strip sample_row) !! Z.to_nat (4 * 0 + 2 + 2) = Some tok ∧
    ((tok = "OVRFLW" ∧ grid_getitem g 0 2 (-1 + 1) = Ok nan) ∨
     (tok ≠ "OVRFLW" ∧
      ∃ v, decimal_literal tok = Some v ∧
           grid_getitem g 0 2 (-1 + 1) = Ok v)).
Proof.
  apply (cell_from_token decimal_literal decimal_literal 1 4 0
           [sample_header] sample_open sample_read sample_row (-1) "600" 0 2);
    first [lia | vm_compute; reflexivity].
Defined.

Lemma returned_shapes_witness :
  ∃ T, float_floor (1 / 0.5) = Some T ∧
       (∀ key g,
          fst (got (∅, ∅) (Organize decimal_literal decimal_literal
                             sample_file 1 4 1 0.5)) !! key = Some g →
          shape g = (1, 4, T + 1) ∧
          Z.of_nat (length (cells g)) = 1 * 4 * (T + 1)) ∧
       (∀ key t,
          snd (got (∅, ∅) (Organize decimal_literal decimal_literal
                             sample_file 1 4 1 0.5)) !! key = Some t →
          Z.of_nat (length t) = T + 1).
Proof.
  apply (returned_shapes decimal_literal decimal_literal 1 4 sample_file
           1 0.5); vm_compute; reflexivity.
Defined.

Lemma timestamp_hours_witness :
  time_i (sample_step 0 (tsv ["01:30:15"; "A1"; "1"; "2"; "3"; "4"])
            sample_open) = Some (-1 + 1) ∧
  ∃ t',
    time_dict (sample_step 0 (tsv ["01:30:15"; "A1"; "1"; "2"; "3"; "4"])
                 sample_open) !! "600" = Some t' ∧
    py_getitem t' (-1 + 1) = Ok (1 + (30 + 15 / 60) / 60)%float.
Proof.
  apply (timestamp_hours decimal_literal decimal_literal 1 4 0 sample_open
           _ (tsv ["01:30:15"; "A1"; "1"; "2"; "3"; "4"]) (-1) "600"
           "01:30:15" "01" "30" "15" ["A1"; "1"; "2"; "3"; "4"] []
           1%float 30%float 15%float);
    vm_compute; reflexivity.
Defined.

Lemma header_resets_witness :
  ∃ st',
    step decimal_literal decimal_literal 1 4 0 sample_header sample_read
      = Ok st' ∧
    time_i st' = Some (-1) ∧ read st' = Some (drop_last sample_header) ∧
    data_dict st' !! drop_last sample_header = Some (missing_grid 1 4 0) ∧
    time_dict st' !! drop_last sample_header = Some (missing_vec 0) ∧
    Forall (eq nan) (cells (missing_grid 1 4 0)) ∧
    Forall (eq nan) (missing_vec 0) ∧
    ∀ line2 st2,
      classify line2 = Data →
      step decimal_literal decimal_literal 1 4 0 line2 st' = Ok st2 →
      time_i st2 = Some 0 ∧
      ∃ tok rest h,
        split TAB (strip line2) = tok :: rest ∧
        hours_of_timestamp decimal_literal tok = Ok h ∧
        time_dict st2 !! drop_last sample_header
          = Some (<[0%nat := h]> (missing_vec 0)).
Proof.
  apply (header_resets decimal_literal decimal_literal 1 4 0 sample_read
           sample_header); first [lia | vm_compute; reflexivity].
Defined.

Lemma skip_no_change_witness :
  step decimal_literal decimal_literal 1 4 0 sample_labels sample_read
    = Ok sample_read.
Proof.
  apply (skip_no_change decimal_literal decimal_literal 1 4 0 sample_read
           sample_labels).
  - right. vm_compute. reflexivity.
  - vm_compute. discriminate.
Defined.

Lemma data_before_header_witness :
  (∀ T, run decimal_literal decimal_literal 1 4 T
          ([NL; sample_labels] ++ sample_row :: []) init
        = Raise UnboundLocalError) ∧
  ∃ e, Organize decimal_literal decimal_literal
         ([NL; sample_labels] ++ sample_row :: []) 1 4 0 0.5 = Raise e.
Proof.
  apply (data_before_header decimal_literal decimal_literal 1 4
           [NL; sample_labels] [] sample_row 0 0.5).
  - repeat constructor.
  - vm_compute. reflexivity.
Defined.

Lemma rows_past_capacity_witness :
  (∃ e, Organize decimal_literal decimal_literal
          (sample_file ++ sample_row :: []) 1 4 0 0.5 = Raise e) ∧
  ∀ tok rest h,
    split TAB (strip sample_row) = tok :: rest →
    hours_of_timestamp decimal_literal tok = Ok h →
    Organize decimal_literal decimal_literal
      (sample_file ++ sample_row :: []) 1 4 0 0.5 = Raise IndexError.
Proof.
  apply (rows_past_capacity decimal_literal decimal_literal 1 4 sample_file
           [] sample_row 0 0.5 0 0 sample_read 0);
    first [lia | vm_compute; reflexivity].
Defined.

Lemma header_before_skip_witness :
  classify (tsv ["Time"; "A1"]) = Header ∧
  step decimal_literal decimal_literal 1 4 0 (tsv ["Time"; "A1"]) sample_read
  = Ok (State (Some (-1)) (Some (drop_last (tsv ["Time"; "A1"])))
          (<[drop_last (tsv ["Time"; "A1"]) := missing_grid 1 4 0]>
             (data_dict sample_read))
          (<[drop_last (tsv ["Time"; "A1"]) := missing_vec 0]>
             (time_dict sample_read))).
Proof.
  apply (header_before_skip decimal_literal decimal_literal 1 4 0 sample_read
           (tsv ["Time"; "A1"])).
  - left. vm_compute. reflexivity.
  - do 6 right. vm_compute. reflexivity.
  - lia.
  - lia.
  - lia.
Defined.

(** * Further properties of the parser *)

(** ** Loops that return, loops that raise *)

Lemma for_each_returns {A S : Type} (P : S → Prop) (l : list A)
    (body : A → S → result S) :
  (∀ x s, x ∈ l → P s → ∃ s', body x s = Ok s' ∧ P s') →
  ∀ s, P s → ∃ s', for_each l body s = Ok s' ∧ P s'.
Proof.
  induction l as [|x l IH]; intros Hbody s Hs; simpl.
  - eauto.
  - destruct (Hbody x s) as (s1 & -> & Hs1); [apply list_elem_of_here | exact Hs |].
    simpl. apply IH; [|exact Hs1].
    intros y t Hy. apply Hbody. now apply list_elem_of_further.
Qed.

(** What holds of the state when the loop returns, and of the exception
    when it raises. *)
Lemma for_each_outcome {A S : Type} (P : S → Prop) (Q : exn → Prop)
    (l : list A) (body : A → S → result S) :
  (∀ x s, x ∈ l → P s →
          match body x s with Ok s' => P s' | Raise e => Q e end) →
  ∀ s, P s →
       match for_each l body s with Ok s' => P s' | Raise e => Q e end.
Proof.
  induction l as [|x l IH]; intros Hbody s Hs; simpl; [exact Hs|].
  pose proof (Hbody x s (list_elem_of_here _ _) Hs) as Hx.
  destruct (body x s) as [s1|e]; simpl; [|exact Hx].
  apply IH; [|exact Hx].
  intros y t Hy. apply Hbody. now apply list_elem_of_further.
Qed.

Lemma for_each_ext {A S : Type} (l : list A) (f g : A → S → result S) :
  (∀ x s, x ∈ l → f x s = g x s) →
  ∀ s, for_each l f s = for_each l g s.
Proof.
  induction l as [|x l IH]; intros Hfg s; simpl; [reflexivity|].
  rewrite Hfg by apply list_elem_of_here.
  destruct (g x s) as [s1|e]; simpl; [|reflexivity].
  apply IH. intros y t Hy. apply Hfg. now apply list_elem_of_further.
Qed.

Lemma py_getitem_lookup {A : Type} (l : list A) (i : Z) :
  0 ≤ i → py_getitem l i = or_raise IndexError (l !! Z.to_nat i).
Proof.
  intros Hi. destruct (l !! Z.to_nat i) as [x|] eqn:Hx.
  - now apply py_getitem_nonneg.
  - apply lookup_ge_None in Hx. simpl. apply py_getitem_past. lia.
Qed.

(** ** Rows that parse *)

Section Returns.

Variable py_float : string → option float.
Variable np_float64 : string → option float.
Variables R C T : Z.

Lemma cell_returns (element : list string) (r : string) (k row col : Z)
    (dd : gmap string grid) (g : grid) (tok : string) (v : float) :
  dd !! r = Some g → grid_ok R C T g →
  0 ≤ row < R → 0 ≤ col < C → 0 ≤ k < T + 1 →
  element !! Z.to_nat (C * row + 2 + col) = Some tok →
  cell_value np_float64 tok = Some v →
  cell np_float64 C element r k row col dd
  = Ok (<[r := poke g (Z.to_nat ((row * C + col) * (T + 1) + k)) v]> dd).
Proof.
  intros Hg Hok Hrow Hcol Hk Htok Hv. unfold cell.
  replace (C * row + 1 + 1 + col) with (C * row + 2 + col) by lia.
  assert (0 ≤ C * row + 2 + col) as Hidx by nia.
  assert ((length element =? 1)%nat = false) as ->.
  { apply Nat.eqb_neq. apply lookup_lt_Some in Htok. nia. }
  simpl. rewrite (proj2 (py_getitem_nonneg element _ tok Hidx) Htok). simpl.
  destruct (item_pointer_in_range R C T g row col k Hok Hrow Hcol Hk)
    as [Hp _].
  unfold cell_value in Hv. unfold store. rewrite Hg. simpl. rewrite Hp. simpl.
  destruct (tok =? "OVRFLW")%string.
  - injection Hv as <-. reflexivity.
  - simpl. rewrite Hv. reflexivity.
Qed.

Lemma cells_loop_returns (element : list string) (r : string) (k : Z)
    (dd : gmap string grid) :
  has_grid R C T r dd → 0 ≤ k < T + 1 →
  row_complete np_float64 R C element →
  ∃ dd', cells_loop np_float64 R C element r k dd = Ok dd' ∧
         has_grid R C T r dd'.
Proof.
  intros Hdd Hk Hrow. unfold cells_loop.
  apply (for_each_returns (has_grid R C T r)); [|exact Hdd].
  intros row d Hr Hd. apply elem_of_range in Hr.
  apply (for_each_returns (has_grid R C T r)); [|exact Hd].
  intros col e Hc (g & Hg & Hok). apply elem_of_range in Hc.
  destruct (Hrow row col Hr Hc) as (tok & v & Htok & Hv).
  rewrite (cell_returns element r k row col e g tok v) by assumption.
  eexists. split; [reflexivity|].
  eexists. rewrite lookup_insert_eq. split; [reflexivity | now apply poke_ok].
Qed.

(** X1: a data row met on an open channel below the last time index
    parses, as soon as its timestamp converts and each cell has a token
    that is "OVRFLW" or converts. *)
Theorem complete_row_parses (pre : list string) (st : state) (line : string)
    (i : Z) (tok0 : string) (rest : list string) (h : float) :
  run py_float np_float64 R C T pre init = Ok st →
  time_i st = Some i → i < T →
  classify line = Data →
  split TAB (strip line) = tok0 :: rest →
  hours_of_timestamp py_float tok0 = Ok h →
  row_complete np_float64 R C (tok0 :: rest) →
  ∃ st', step py_float np_float64 R C T line st = Ok st' ∧
         time_i st' = Some (i + 1) ∧ read st' = read st.
Proof.
  intros Hpre Hi HiT Hdata Hsplit Hh Hrow.
  apply inv_run in Hpre as [Hd Ht Ho]. rewrite Hi in Ho.
  destruct (read st) as [r|] eqn:Hr; [|contradiction].
  destruct Ho as (Hi1 & [g Hg] & [t Htr]).
  pose proof (Ht _ _ Htr) as Hlen. unfold vec_ok in Hlen.
  destruct (cells_loop_returns (tok0 :: rest) r (i + 1) (data_dict st))
    as (dd' & Hloop & _); [exists g; split; [exact Hg | eapply Hd, Hg] | lia
                          | exact Hrow |].
  rewrite step_classify, Hdata. unfold data_row.
  rewrite Hsplit, Hi, py_getitem_head. simpl. rewrite Hh, Hr. simpl.
  rewrite Htr. simpl. unfold vec_setitem.
  rewrite norm_index_in_range by lia. simpl. rewrite Hloop. simpl.
  eexists. split; [reflexivity|]. simpl. tauto.
Qed.

End Returns.

(** ** What a data row leaves alone *)

Lemma flat_index_time (C T1 r1 c1 k1 r2 c2 k2 : Z) :
  0 ≤ r1 → 0 ≤ r2 → 0 ≤ c1 < C → 0 ≤ c2 < C → 0 ≤ k1 < T1 → 0 ≤ k2 < T1 →
  (r1 * C + c1) * T1 + k1 = (r2 * C + c2) * T1 + k2 → k1 = k2.
Proof.
  intros Hr1 Hr2 Hc1 Hc2 Hk1 Hk2 Heq.
  assert (r1 * C + c1 = r2 * C + c2) as Hrc by nia.
  rewrite Hrc in Heq. lia.
Qed.

Section Frame.

Variable py_float : string → option float.
Variable np_float64 : string → option float.
Variables R C T : Z.

Lemma same_elsewhere_refl (k : Z) (g : grid) : same_elsewhere R C T k g g.
Proof. now intros a b k' _ _ _ _. Qed.

Lemma same_elsewhere_poke (k row col : Z) (g0 g : grid) (v : float) :
  grid_ok R C T g → 0 ≤ row < R → 0 ≤ col < C → 0 ≤ k < T + 1 →
  same_elsewhere R C T k g0 g →
  same_elsewhere R C T k g0
    (poke g (Z.to_nat ((row * C + col) * (T + 1) + k)) v).
Proof.
  intros Hok Hrow Hcol Hk Hsame a b k' Ha Hb Hk' Hne.
  rewrite <- (Hsame a b k' Ha Hb Hk' Hne).
  destruct (item_pointer_in_range R C T g a b k' Hok Ha Hb Hk') as [Hq _].
  apply (grid_getitem_poke_other k' g a b _ _ v Hq).
  intros Heq. apply Hne.
  apply (flat_index_time C (T + 1) a b k' row col k); try lia.
  assert (0 ≤ a * C + b) by nia. assert (0 ≤ row * C + col) by nia.
  assert (0 ≤ (a * C + b) * (T + 1)) by nia.
  assert (0 ≤ (row * C + col) * (T + 1)) by nia.
  lia.
Qed.

(** The loops touch one channel and, there, one time point. *)
Lemma cells_loop_frame (element : list string) (r : string) (k : Z)
    (dd dd' : gmap string grid) (g0 : grid) :
  dd !! r = Some g0 → grid_ok R C T g0 → 0 ≤ k < T + 1 →
  cells_loop np_float64 R C element r k dd = Ok dd' →
  (∃ g', dd' !! r = Some g' ∧ same_elsewhere R C T k g0 g') ∧
  ∀ key, key ≠ r → dd' !! key = dd !! key.
Proof.
  intros Hg0 Hok0 Hk Hloop. unfold cells_loop in Hloop.
  pose (P := fun d : gmap string grid =>
    (∃ g', d !! r = Some g' ∧ grid_ok R C T g' ∧
           same_elsewhere R C T k g0 g') ∧
    ∀ key, key ≠ r → d !! key = dd !! key).
  assert (P dd) as HP.
  { split; [|auto]. exists g0. split; [exact Hg0|].
    split; [exact Hok0 | apply same_elsewhere_refl]. }
  assert (P dd') as [(g' & Hg' & _ & Hsame) Hother].
  { revert Hloop. apply (for_each_invariant P); [|exact HP].
    intros row d d' Hrow Hd. apply elem_of_range in Hrow.
    apply (for_each_invariant P); [|exact Hd].
    intros col e e' Hcol [(g & Hg & Hok & Hsame) Hother] Hcell.
    apply elem_of_range in Hcol.
    apply cell_Ok in Hcell as (g1 & p & tok & v & Hg1 & Hp & _ & _ & ->);
      [|lia..].
    rewrite Hg in Hg1. injection Hg1 as <-.
    destruct (item_pointer_in_range R C T g row col k Hok Hrow Hcol Hk)
      as [Hp' _].
    rewrite Hp in Hp'. injection Hp' as ->.
    split.
    - eexists. rewrite lookup_insert_eq. split; [reflexivity|].
      split; [now apply poke_ok | now apply same_elsewhere_poke].
    - intros key Hkey. rewrite lookup_insert_ne by congruence.
      now apply Hother. }
  split; [eauto | exact Hother].
Qed.

(** A data row writes one item of one time vector and the cells of one
    time point of one grid. *)
Lemma data_row_frame (st st' : state) (line : string) (i : Z) (r : string) :
  inv R C T st → time_i st = Some i → read st = Some r →
  data_row py_float np_float64 R C st line = Ok st' →
  i + 1 < T + 1 ∧
  (∀ key, key ≠ r →
     data_dict st' !! key = data_dict st !! key ∧
     time_dict st' !! key = time_dict st !! key) ∧
  ∃ g g' t h,
    data_dict st !! r = Some g ∧ data_dict st' !! r = Some g' ∧
    time_dict st !! r = Some t ∧
    time_dict st' !! r = Some (<[Z.to_nat (i + 1) := h]> t) ∧
    same_elsewhere R C T (i + 1) g g'.
Proof.
  intros [Hd Ht Ho] Hi Hr Hrow.
  apply data_row_Ok in Hrow
    as (i' & r' & tok & rest & h & t & t' & dd' & Hi' & Hr' & _ & _ & Htr &
        Hset & Hloop & ->).
  rewrite Hi in Hi'. injection Hi' as <-.
  rewrite Hr in Hr'. injection Hr' as <-.
  rewrite Hi, Hr in Ho. destruct Ho as (Hi1 & [g Hg] & _).
  apply vec_setitem_nonneg in Hset as [Hlt ->]; [|lia].
  pose proof (Ht _ _ Htr) as Hlen. unfold vec_ok in Hlen.
  apply (cells_loop_frame _ _ _ _ _ g) in Hloop
    as [(g' & Hg' & Hsame) Hother]; [|exact Hg|eapply Hd, Hg|lia].
  split; [lia|]. simpl. split.
  - intros key Hkey. split; [now apply Hother|].
    rewrite lookup_insert_ne by congruence. reflexivity.
  - exists g, g', t, h. rewrite lookup_insert_eq. tauto.
Qed.

(** X2: a data row that is parsed leaves the arrays of the other channels
    as they are; in its own channel it sets the item of the time vector at
    the new time index and leaves every other time point of the grid as it
    was. *)
Theorem row_touches_one_time_point (pre : list string) (st st' : state)
    (line : string) (i : Z) (r : string) :
  run py_float np_float64 R C T pre init = Ok st →
  time_i st = Some i → read st = Some r →
  classify line = Data →
  step py_float np_float64 R C T line st = Ok st' →
  (∀ key, key ≠ r →
     data_dict st' !! key = data_dict st !! key ∧
     time_dict st' !! key = time_dict st !! key) ∧
  ∃ g g' t h,
    data_dict st !! r = Some g ∧ data_dict st' !! r = Some g' ∧
    time_dict st !! r = Some t ∧
    time_dict st' !! r = Some (<[Z.to_nat (i + 1) := h]> t) ∧
    ∀ a b k', 0 ≤ a < R → 0 ≤ b < C → 0 ≤ k' < T + 1 → k' ≠ i + 1 →
              grid_getitem g' a b k' = grid_getitem g a b k'.
Proof.
  intros Hpre Hi Hr Hdata Hstep. apply inv_run in Hpre.
  rewrite step_classify, Hdata in Hstep.
  destruct (data_row_frame st st' line i r Hpre Hi Hr Hstep)
    as (_ & Hother & Hown).
  split; [exact Hother | exact Hown].
Qed.

Lemma missing_grid_getitem (a b k : Z) :
  0 ≤ a < R → 0 ≤ b < C → 0 ≤ k < T + 1 →
  grid_getitem (missing_grid R C T) a b k = Ok nan.
Proof.
  intros Ha Hb Hk.
  assert (grid_ok R C T (missing_grid R C T)) as Hok
    by (apply missing_grid_ok; lia).
  destruct (item_pointer_in_range R C T _ a b k Hok Ha Hb Hk) as [Hp Hlt].
  unfold grid_getitem. rewrite Hp. simpl.
  unfold missing_grid in *. simpl in *.
  rewrite length_replicate in Hlt. now rewrite lookup_replicate_2.
Qed.

Lemma unread_missing_step (st st' : state) (line : string) :
  inv R C T st → unread_missing R C T st →
  step py_float np_float64 R C T line st = Ok st' →
  unread_missing R C T st'.
Proof.
  intros Hinv Hun. rewrite step_classify. destruct (classify line).
  - intros Hopen.
    destruct (open_channel_dims _ _ _ _ _ _ Hopen) as (HR & HC & HT).
    rewrite open_channel_ok in Hopen by assumption. injection Hopen as <-.
    unfold unread_missing. simpl.
    exists (missing_grid R C T), (missing_vec T).
    rewrite !lookup_insert_eq. do 2 (split; [reflexivity|]).
    intros k' Hk'. split.
    + unfold missing_vec. apply lookup_replicate_2. lia.
    + intros a b Ha Hb. apply missing_grid_getitem; lia.
  - intros Hrow. pose proof Hrow as Hrow'.
    apply data_row_Ok in Hrow'
      as (i & r & tok & rest & h0 & t0 & t0' & dd0 & Hi & Hr & _ & _ & _ & _ &
          _ & Hst').
    destruct (data_row_frame st st' line i r Hinv Hi Hr Hrow)
      as (HiT & _ & g & g' & t & h & Hg & Hg' & Htr & Htr' & Hsame).
    unfold unread_missing in *. rewrite Hi, Hr in Hun.
    destruct Hun as (g1 & t1 & Hg1 & Ht1 & Hmiss).
    rewrite Hg in Hg1. injection Hg1 as <-.
    rewrite Htr in Ht1. injection Ht1 as <-.
    destruct Hinv as [_ _ Ho]. rewrite Hi, Hr in Ho. destruct Ho as (Hi1 & _).
    rewrite Hst'. simpl. rewrite Hst' in Hg', Htr'. simpl in Hg', Htr'.
    exists g', (<[Z.to_nat (i + 1) := h]> t).
    split; [exact Hg'|]. split; [exact Htr'|].
    intros k' Hk'. destruct (Hmiss k') as [Hv Hc]; [lia|]. split.
    + rewrite list_lookup_insert_ne by lia. exact Hv.
    + intros a b Ha Hb. rewrite Hsame by lia. now apply Hc.
  - now intros [= <-].
Qed.

(** X3: in every state the parser reaches, the open channel holds
    missing values at all the time points after the current time index:
    what no data row has filled yet is still missing. *)
Theorem unread_time_points_missing (lines : list string) (st : state)
    (i : Z) (r : string) :
  run py_float np_float64 R C T lines init = Ok st →
  time_i st = Some i → read st = Some r →
  ∃ g t, data_dict st !! r = Some g ∧ time_dict st !! r = Some t ∧
         ∀ k', i < k' < T + 1 →
               t !! Z.to_nat k' = Some nan ∧
               ∀ a b, 0 ≤ a < R → 0 ≤ b < C →
                      grid_getitem g a b k' = Ok nan.
Proof.
  intros Hrun Hi Hr.
  assert (inv R C T st ∧ unread_missing R C T st) as [_ Hun].
  { revert Hrun. unfold run.
    apply (for_each_invariant
             (fun s => inv R C T s ∧ unread_missing R C T s)).
    - intros line s s' _ [Hinv Hun] Hstep.
      split; [eapply inv_step | eapply unread_missing_step]; eassumption.
    - split; [apply inv_init | exact I]. }
  unfold unread_missing in Hun. now rewrite Hi, Hr in Hun.
Qed.

End Frame.

(** ** The channels of a file *)

Section Channels.

Variable py_float : string → option float.
Variable np_float64 : string → option float.
Variables R C T : Z.

Lemma cells_loop_dom (element : list string) (r : string) (k : Z)
    (dd dd' : gmap string grid) :
  cells_loop np_float64 R C element r k dd = Ok dd' → dom dd' = dom dd.
Proof.
  unfold cells_loop.
  apply (for_each_invariant (fun d => dom d = dom dd)); [|reflexivity].
  intros row d d' Hrow Hd. apply elem_of_range in Hrow.
  apply (for_each_invariant (fun d => dom d = dom dd)); [|exact Hd].
  intros col e e' Hcol He Hcell. apply elem_of_range in Hcol.
  apply cell_Ok in Hcell as (g & p & tok & v & Hg & _ & _ & _ & ->); [|lia..].
  rewrite dom_insert_L, <- He.
  assert (r ∈ dom e) by (apply elem_of_dom; eauto). set_solver.
Qed.

Lemma step_dom (st st' : state) (line : string) :
  step py_float np_float64 R C T line st = Ok st' →
  dom (data_dict st') = dom (data_dict st) ∪ channel_names [line] ∧
  dom (time_dict st') = dom (time_dict st) ∪ channel_names [line].
Proof.
  unfold step, channel_names. rewrite filter_cons, filter_nil.
  destruct (is_header line) eqn:Hh.
  - intros Hopen.
    destruct (open_channel_dims _ _ _ _ _ _ Hopen) as (HR & HC & HT).
    rewrite open_channel_ok in Hopen by assumption. injection Hopen as <-.
    rewrite decide_True by reflexivity. simpl.
    rewrite !dom_insert_L. set_solver.
  - rewrite decide_False by discriminate. simpl.
    destruct (is_data line).
    + intros Hrow. apply data_row_Ok in Hrow
        as (i & r & tok & rest & h & t & t' & dd' & _ & _ & _ & _ & Htr & _ &
            Hloop & ->).
      apply cells_loop_dom in Hloop. simpl. rewrite Hloop, dom_insert_L.
      assert (r ∈ dom (time_dict st)) by (apply elem_of_dom; eauto).
      set_solver.
    + intros [= <-]. set_solver.
Qed.

Lemma channel_names_cons (line : string) (lines : list string) :
  channel_names (line :: lines) = channel_names [line] ∪ channel_names lines.
Proof.
  unfold channel_names. rewrite !filter_cons, filter_nil.
  destruct (decide (is_header line = true)); simpl; set_solver.
Qed.

Lemma run_dom (lines : list string) (st st' : state) :
  run py_float np_float64 R C T lines st = Ok st' →
  dom (data_dict st') = dom (data_dict st) ∪ channel_names lines ∧
  dom (time_dict st') = dom (time_dict st) ∪ channel_names lines.
Proof.
  unfold run. revert st.
  induction lines as [|line lines IH]; intros st Hrun; simpl in Hrun.
  - injection Hrun as <-. unfold channel_names. simpl. set_solver.
  - ok_inv Hrun. apply step_dom in E as [E1 E2].
    apply IH in Hrun as [H1 H2].
    rewrite channel_names_cons, H1, H2, E1, E2. set_solver.
Qed.

Lemma run_data_rows (lines : list string) (st st' : state) (i : Z) :
  Forall (fun l => classify l ≠ Header) lines →
  run py_float np_float64 R C T lines st = Ok st' →
  time_i st = Some i →
  time_i st' = Some (i + data_rows lines) ∧ read st' = read st.
Proof.
  unfold run, data_rows. intros Hno. revert st i.
  induction Hno as [|line lines Hline _ IH]; intros st i Hrun Hi;
    simpl in Hrun.
  - injection Hrun as <-. simpl. rewrite Hi. split; [f_equal; lia | reflexivity].
  - ok_inv Hrun. rewrite step_classify in E. rewrite filter_cons.
    destruct (classify line) eqn:Hc; [congruence | |].
    + apply data_row_Ok in E
        as (i' & r & tok & rest & h & t & t' & dd' & Hi' & Hr & _ & _ & _ &
            _ & _ & ->).
      rewrite Hi in Hi'. injection Hi' as <-.
      destruct (IH _ (i + 1) Hrun eq_refl) as [H1 H2].
      rewrite decide_True by reflexivity. simpl length.
      rewrite H1, H2, Hr. simpl. split; [f_equal; lia | reflexivity].
    + injection E as <-. rewrite decide_False by discriminate.
      now apply IH.
Qed.

(** X5: after a header line and any lines that are not headers, the
    time index is the number of data rows among them, less one, and the
    open channel is still the one the header named: skipped lines do not
    count. *)
Theorem time_index_counts_rows (header : string) (lines : list string)
    (st st' : state) :
  classify header = Header →
  Forall (fun l => classify l ≠ Header) lines →
  run py_float np_float64 R C T (header :: lines) st = Ok st' →
  time_i st' = Some (data_rows lines - 1) ∧
  read st' = Some (drop_last header).
Proof.
  intros Hh Hno Hrun. unfold run in Hrun. simpl in Hrun. ok_inv Hrun.
  rewrite step_classify, Hh in E.
  destruct (open_channel_dims _ _ _ _ _ _ E) as (HR & HC & HT).
  rewrite open_channel_ok in E by assumption. injection E as <-.
  destruct (run_data_rows lines _ st' (-1) Hno Hrun eq_refl) as [H1 H2].
  rewrite H1, H2. simpl. split; [f_equal; lia | reflexivity].
Qed.

End Channels.

(** X4: the two mappings [Organize] returns have the same keys: the
    header lines of the file, each without its last character. *)
Theorem returned_keys (py_float np_float64 : string → option float)
    (R C : Z) (lines : list string)
    (total_run_time sampling_rate : float)
    (dd : gmap string grid) (td : gmap string vec) :
  Organize py_float np_float64 lines R C total_run_time sampling_rate
    = Ok (dd, td) →
  dom dd = channel_names lines ∧ dom td = channel_names lines.
Proof.
  intros Hrun. unfold Organize in Hrun. ok_inv Hrun.
  injection Hrun as <- <-.
  apply run_dom in E1 as [H1 H2]. simpl in H1, H2.
  rewrite H1, H2, !dom_empty_L. set_solver.
Qed.

(** ** Rows that do not parse *)

Lemma for_each_visits {A S : Type} (l : list A) (body : A → S → result S)
    (s s' : S) :
  for_each l body s = Ok s' → ∀ x, x ∈ l → ∃ t t', body x t = Ok t'.
Proof.
  revert s. induction l as [|y l IH]; intros s Hrun x Hx; simpl in Hrun.
  - now apply elem_of_nil in Hx.
  - ok_inv Hrun. apply elem_of_cons in Hx as [-> | Hx]; [eauto|].
    eapply IH; eassumption.
Qed.

Section Outcome.

Variable py_float : string → option float.
Variable np_float64 : string → option float.
Variables R C T : Z.

(** A loop that returns found a token for every cell. *)
Lemma cells_loop_tokens (element : list string) (r : string) (k : Z)
    (dd dd' : gmap string grid) (row col : Z) :
  cells_loop np_float64 R C element r k dd = Ok dd' →
  0 ≤ row < R → 0 ≤ col < C →
  is_Some (element !! Z.to_nat (C * row + 2 + col)).
Proof.
  unfold cells_loop. intros Hloop Hrow Hcol.
  destruct (for_each_visits _ _ _ _ Hloop row) as (d & d' & Hinner);
    [now apply elem_of_range|].
  destruct (for_each_visits _ _ _ _ Hinner col) as (e & e' & Hcell);
    [now apply elem_of_range|].
  apply cell_Ok in Hcell as (g & p & tok & v & _ & _ & Htok & _); [|lia..].
  eauto.
Qed.

(** X6: with wells to fill, a data row of fewer than [2 + R * C] tokens is
    never parsed, in whatever state it is met: the step raises. *)
Theorem short_row_raises (st : state) (line : string) :
  0 < R → 0 < C →
  classify line = Data →
  Z.of_nat (length (split TAB (strip line))) < 2 + R * C →
  ∃ e, step py_float np_float64 R C T line st = Raise e.
Proof.
  intros HR HC Hdata Hshort. rewrite step_classify, Hdata.
  destruct (data_row py_float np_float64 R C st line) as [st'|e] eqn:Hrow;
    [|eauto].
  apply data_row_Ok in Hrow
    as (i & r & tok & rest & h & t & t' & dd' & _ & _ & Hsplit & _ & _ & _ &
        Hloop & _).
  rewrite Hsplit in Hshort.
  destruct (cells_loop_tokens _ _ _ _ _ (R - 1) (C - 1) Hloop) as [x Hx];
    [lia..|].
  apply lookup_lt_Some in Hx. nia.
Qed.

Lemma cell_outcome (element : list string) (r : string) (k row col : Z)
    (dd : gmap string grid) :
  has_grid R C T r dd →
  0 ≤ row < R → 0 ≤ col < C → 0 ≤ k < T + 1 →
  match cell np_float64 C element r k row col dd with
  | Ok dd' => has_grid R C T r dd'
  | Raise e =>
      (e = IndexError ∧ element !! Z.to_nat (C * row + 2 + col) = None) ∨
      (e = ValueError ∧
       ∃ tok, element !! Z.to_nat (C * row + 2 + col) = Some tok ∧
              cell_value np_float64 tok = None)
  end.
Proof.
  intros (g & Hg & Hok) Hrow Hcol Hk.
  assert (0 ≤ C * row + 2 + col) as Hidx by nia.
  destruct (item_pointer_in_range R C T g row col k Hok Hrow Hcol Hk)
    as [Hp _].
  destruct (element !! Z.to_nat (C * row + 2 + col)) as [tok|] eqn:Htok.
  - destruct (cell_value np_float64 tok) as [v|] eqn:Hv.
    + rewrite (cell_returns np_float64 R C T element r k row col dd g tok v)
        by assumption.
      eexists. rewrite lookup_insert_eq.
      split; [reflexivity | now apply poke_ok].
    + assert (cell np_float64 C element r k row col dd = Raise ValueError)
        as ->.
      { unfold cell.
        replace (C * row + 1 + 1 + col) with (C * row + 2 + col) by lia.
        assert ((length element =? 1)%nat = false) as ->.
        { apply Nat.eqb_neq. apply lookup_lt_Some in Htok. nia. }
        simpl. rewrite (proj2 (py_getitem_nonneg element _ tok Hidx) Htok).
        simpl. unfold cell_value in Hv.
        destruct (tok =? "OVRFLW")%string; [discriminate Hv|]. simpl.
        unfold store. rewrite Hg. simpl. rewrite Hp. simpl. now rewrite Hv. }
      right. split; [reflexivity|]. now exists tok.
  - assert (cell np_float64 C element r k row col dd = Raise IndexError)
      as ->; [|tauto].
    apply lookup_ge_None in Htok. unfold cell.
    replace (C * row + 1 + 1 + col) with (C * row + 2 + col) by lia.
    rewrite (py_getitem_past element) by lia.
    destruct (length element =? 1)%nat; simpl; [|reflexivity].
    unfold store. rewrite Hg. simpl. now rewrite Hp.
Qed.

Lemma cells_loop_outcome (element : list string) (r : string) (k : Z)
    (dd : gmap string grid) :
  has_grid R C T r dd → 0 ≤ k < T + 1 →
  match cells_loop np_float64 R C element r k dd with
  | Ok dd' => has_grid R C T r dd'
  | Raise e => row_failure np_float64 R C element e
  end.
Proof.
  intros Hdd Hk. unfold cells_loop.
  apply (for_each_outcome (has_grid R C T r)
           (row_failure np_float64 R C element)); [|exact Hdd].
  intros row d Hrow Hd. apply elem_of_range in Hrow.
  apply (for_each_outcome (has_grid R C T r)
           (row_failure np_float64 R C element)); [|exact Hd].
  intros col e Hcol He. apply elem_of_range in Hcol.
  pose proof (cell_outcome element r k row col e He Hrow Hcol Hk) as Hcell.
  destruct (cell np_float64 C element r k row col e) as [e'|x];
    [exact Hcell|].
  destruct Hcell as [[-> Hnone] | [-> (tok & Htok & Hv)]].
  - left. split; [reflexivity|]. exists row, col. tauto.
  - right. split; [reflexivity|]. exists row, col, tok. tauto.
Qed.

(** X7: on an open channel below the last time index, a data row whose
    timestamp converts either is parsed, and then every cell had a token
    with a value; or raises [IndexError], and then some cell had no token;
    or raises [ValueError], and then the token of some cell is neither
    "OVRFLW" nor a number. *)
Theorem row_outcome (pre : list string) (st : state) (line : string)
    (i : Z) (tok0 : string) (rest : list string) (h : float) :
  run py_float np_float64 R C T pre init = Ok st →
  time_i st = Some i → i < T →
  classify line = Data →
  split TAB (strip line) = tok0 :: rest →
  hours_of_timestamp py_float tok0 = Ok h →
  match step py_float np_float64 R C T line st with
  | Ok _ => row_complete np_float64 R C (tok0 :: rest)
  | Raise e => row_failure np_float64 R C (tok0 :: rest) e
  end.
Proof.
  intros Hpre Hi HiT Hdata Hsplit Hh.
  apply inv_run in Hpre as [Hd Ht Ho]. rewrite Hi in Ho.
  destruct (read st) as [r|] eqn:Hr; [|contradiction].
  destruct Ho as (Hi1 & [g Hg] & [t Htr]).
  pose proof (Ht _ _ Htr) as Hlen. unfold vec_ok in Hlen.
  assert (has_grid R C T r (data_dict st)) as Hgrid
    by (exists g; split; [exact Hg | eapply Hd, Hg]).
  assert (0 ≤ i + 1 < T + 1) as Hk by lia.
  pose proof (cells_loop_outcome (tok0 :: rest) r (i + 1) _ Hgrid Hk)
    as Hout.
  rewrite step_classify, Hdata. unfold data_row.
  rewrite Hsplit, Hi, py_getitem_head. simpl. rewrite Hh, Hr. simpl.
  rewrite Htr. simpl. unfold vec_setitem.
  rewrite norm_index_in_range by lia. simpl.
  destruct (cells_loop np_float64 R C (tok0 :: rest) r (i + 1) (data_dict st))
    as [dd'|e] eqn:Hloop; simpl; [|exact Hout].
  apply (cells_loop_covers _ R C T) in Hloop; [|exact Hk|].
  - destruct Hloop as (g' & _ & _ & Hw). intros row col Hrow Hcol.
    destruct (Hw row col Hrow Hcol I) as (tok & v & Htok & Hv & _). eauto.
  - destruct Hgrid as (g0 & Hg0 & Hok0). exists g0. tauto.
Qed.

(** X8: on an open channel, a data row whose timestamp has fewer than
    three fields between colons raises [IndexError], and one with a field
    among the first three that is not a number raises [ValueError]; the
    time index and the arrays play no part. *)
Theorem bad_timestamp_raises (st : state) (line : string) (i : Z)
    (tok0 : string) (rest : list string) :
  time_i st = Some i →
  classify line = Data →
  split TAB (strip line) = tok0 :: rest →
  ((length (split ":" tok0) < 3)%nat →
   step py_float np_float64 R C T line st = Raise IndexError) ∧
  (∀ hs ms ss more,
     split ":" tok0 = hs :: ms :: ss :: more →
     py_float hs = None ∨ py_float ms = None ∨ py_float ss = None →
     step py_float np_float64 R C T line st = Raise ValueError).
Proof.
  intros Hi Hdata Hsplit. rewrite step_classify, Hdata. unfold data_row.
  rewrite Hsplit, Hi, py_getitem_head. simpl. unfold hours_of_timestamp.
  split.
  - intros Hlen. rewrite (py_getitem_past (split ":" tok0) 2) by lia.
    reflexivity.
  - intros hs ms ss more Hfields Hbad. rewrite Hfields.
    rewrite !py_getitem_lookup by lia. simpl.
    destruct (py_float ss); simpl; [|reflexivity].
    destruct (py_float ms); simpl; [|reflexivity].
    destruct (py_float hs); simpl; [|reflexivity].
    destruct Hbad as [H | [H | H]]; discriminate H.
Qed.

End Outcome.

(** ** What a row is read from *)

Lemma drop_last_snoc (s : string) (c : ascii) :
  drop_last (s +:+ String c EmptyString) = s.
Proof.
  induction s as [|a s IH]; [reflexivity|].
  simpl. rewrite IH. destruct s; reflexivity.
Qed.

Section Reading.

Variable py_float : string → option float.
Variable np_float64 : string → option float.
Variables R C T : Z.

Lemma cell_same_tokens (tok0 lab1 lab2 : string) (cells1 cells2 : list string)
    (r : string) (k row col : Z) (dd : gmap string grid) :
  take (Z.to_nat (R * C)) cells1 = take (Z.to_nat (R * C)) cells2 →
  0 ≤ row < R → 0 ≤ col < C →
  cell np_float64 C (tok0 :: lab1 :: cells1) r k row col dd =
  cell np_float64 C (tok0 :: lab2 :: cells2) r k row col dd.
Proof.
  intros Htake Hrow Hcol. unfold cell. simpl length.
  assert (0 ≤ C * row + col < R * C) as Hn by nia.
  assert (∀ lab cells,
    py_getitem (tok0 :: lab :: cells) (C * row + 1 + 1 + col)
    = or_raise IndexError
        (take (Z.to_nat (R * C)) cells !! Z.to_nat (C * row + col))) as Hget.
  { intros lab cells. rewrite py_getitem_lookup by lia.
    replace (Z.to_nat (C * row + 1 + 1 + col))
      with (S (S (Z.to_nat (C * row + col)))) by lia.
    simpl. now rewrite lookup_take_lt by lia. }
  rewrite !Hget, Htake. reflexivity.
Qed.

(** X9: a data row is read from its timestamp and from the [R * C] tokens
    that follow the second one: two rows that agree on these are parsed
    alike, whatever their second token and whatever comes after the last
    well. *)
Theorem label_and_surplus_ignored (st : state) (line1 line2 : string)
    (tok0 lab1 lab2 : string) (cells1 cells2 : list string) :
  classify line1 = Data → classify line2 = Data →
  split TAB (strip line1) = tok0 :: lab1 :: cells1 →
  split TAB (strip line2) = tok0 :: lab2 :: cells2 →
  take (Z.to_nat (R * C)) cells1 = take (Z.to_nat (R * C)) cells2 →
  step py_float np_float64 R C T line1 st =
  step py_float np_float64 R C T line2 st.
Proof.
  intros Hd1 Hd2 Hs1 Hs2 Htake.
  rewrite !step_classify, Hd1, Hd2. unfold data_row.
  rewrite Hs1, Hs2, !py_getitem_head.
  destruct (or_raise UnboundLocalError (time_i st)) as [i|e]; simpl;
    [|reflexivity].
  destruct (hours_of_timestamp py_float tok0) as [h|e]; simpl; [|reflexivity].
  destruct (or_raise UnboundLocalError (read st)) as [r|e]; simpl;
    [|reflexivity].
  destruct (or_raise KeyError (time_dict st !! r)) as [t|e]; simpl;
    [|reflexivity].
  destruct (vec_setitem t (i + 1) h) as [t'|e]; simpl; [|reflexivity].
  assert (cells_loop np_float64 R C (tok0 :: lab1 :: cells1) r (i + 1)
            (data_dict st)
          = cells_loop np_float64 R C (tok0 :: lab2 :: cells2) r (i + 1)
              (data_dict st)) as ->; [|reflexivity].
  unfold cells_loop. apply for_each_ext.
  intros row d Hrow. apply elem_of_range in Hrow. apply for_each_ext.
  intros col e Hcol. apply elem_of_range in Hcol.
  now apply cell_same_tokens.
Qed.

(** X10: the channel a header line opens is named by the line without its
    last character, whichever character that is: the terminator when there
    is one, the last letter of the title when the line ends the file
    without one. *)
Theorem header_names_channel (st : state) (name : string) (c : ascii) :
  classify (name +:+ String c EmptyString) = Header →
  0 ≤ R → 0 ≤ C → 0 ≤ T + 1 →
  ∃ st',
    step py_float np_float64 R C T (name +:+ String c EmptyString) st
      = Ok st' ∧
    read st' = Some name ∧
    data_dict st' !! name = Some (missing_grid R C T) ∧
    time_dict st' !! name = Some (missing_vec T).
Proof.
  intros Hh HR HC HT. rewrite step_classify, Hh.
  rewrite open_channel_ok by assumption. rewrite drop_last_snoc.
  eexists. split; [reflexivity|]. simpl.
  now rewrite !lookup_insert_eq.
Qed.

(** X12: with a negative number of rows, columns or time points plus one,
    the first header line raises [ValueError], the lines before it being
    skipped: no array of such a shape can be allocated. *)
Theorem negative_dimension_raises (skipped rest : list string)
    (header : string) (st : state) :
  Forall (fun l => classify l = Skip) skipped →
  classify header = Header →
  R < 0 ∨ C < 0 ∨ T + 1 < 0 →
  run py_float np_float64 R C T (skipped ++ header :: rest) st
  = Raise ValueError.
Proof.
  intros Hskip Hh Hneg. rewrite run_app, run_skipped by exact Hskip. simpl.
  apply run_Raise. rewrite step_classify, Hh.
  unfold open_channel, np_zeros3, np_zeros1.
  destruct (R <? 0) eqn:HR; [reflexivity|].
  destruct (C <? 0) eqn:HC; [reflexivity|].
  destruct (T + 1 <? 0) eqn:HT; [reflexivity|]. lia.
Qed.

End Reading.

(** X11: a file with nothing but skipped lines, or no line at all, parses
    to two empty mappings. *)
Theorem skipped_file_empty (py_float np_float64 : string → option float)
    (R C : Z) (lines : list string) (total_run_time sampling_rate q : float)
    (T : Z) :
  Forall (fun l => classify l = Skip) lines →
  float_truediv total_run_time sampling_rate = Ok q →
  py_int q = Ok T →
  Organize py_float np_float64 lines R C total_run_time sampling_rate
  = Ok (∅, ∅).
Proof.
  intros Hskip Hq HT. unfold Organize. rewrite Hq. simpl. rewrite HT. simpl.
  now rewrite run_skipped.
Qed.

(** ** The string operations *)

Lemma string_app_assoc (s1 s2 s3 : string) :
  (s1 +:+ s2) +:+ s3 = s1 +:+ (s2 +:+ s3).
Proof.
  induction s1 as [|c s1 IH]; [reflexivity|].
  change (String c ((s1 +:+ s2) +:+ s3) = String c (s1 +:+ (s2 +:+ s3))).
  now rewrite IH.
Qed.

Lemma prefix_append (p s : string) :
  String.prefix p s = true ↔ ∃ post, s = p +:+ post.
Proof.
  revert s. induction p as [|a p IH]; intros s; simpl.
  - split; [intros _; exists s; reflexivity | intros _; now destruct s].
  - destruct s as [|b s]; simpl.
    + split; [discriminate | intros [post [=]]].
    + destruct (ascii_dec a b) as [->|Hne].
      * rewrite IH. split; intros [post H]; exists post.
        -- change (String b s = String b (p +:+ post)). now rewrite H.
        -- change (String b s = String b (p +:+ post)) in H. congruence.
      * split; [discriminate|]. intros [post H].
        change (String b s = String a (p +:+ post)) in H. congruence.
Qed.

(** X13: [contains] is the substring test of [in]: it holds exactly of
    the strings that are the pattern with something before and something
    after. *)
Theorem contains_substring (pat s : string) :
  contains pat s = true ↔ ∃ pre post, s = pre +:+ pat +:+ post.
Proof.
  induction s as [|c s IH].
  - cbn [contains]. rewrite orb_false_r, prefix_append. split.
    + intros [post H]. exists EmptyString, post. exact H.
    + intros (pre & post & H). destruct pre; [eauto | discriminate H].
  - cbn [contains]. rewrite orb_true_iff, prefix_append, IH. split.
    + intros [[post H] | (pre & post & H)].
      * exists EmptyString, post. exact H.
      * exists (String c pre), post. simpl. now rewrite H.
    + intros (pre & post & H). destruct pre as [|a pre].
      * left. eauto.
      * right. injection H as _ H. eauto.
Qed.

Lemma join_cons (sep : ascii) (tok : string) (toks : list string) :
  toks ≠ [] →
  join sep (tok :: toks) = tok +:+ String sep (join sep toks).
Proof. destruct toks; [congruence | reflexivity]. Qed.

Lemma split_no_sep (sep : ascii) (tok : string) :
  has_char sep tok = false → split sep tok = [tok].
Proof.
  induction tok as [|c tok IH]; simpl; [reflexivity|].
  intros H. apply orb_false_iff in H as [Hc Htok].
  rewrite Hc, IH by exact Htok. reflexivity.
Qed.

Lemma split_append (sep : ascii) (tok s : string) :
  has_char sep tok = false →
  split sep (tok +:+ String sep s) = tok :: split sep s.
Proof.
  induction tok as [|c tok IH]; simpl.
  - intros _. now rewrite Ascii.eqb_refl.
  - intros H. apply orb_false_iff in H as [Hc Htok].
    rewrite Hc, IH by exact Htok. reflexivity.
Qed.

(** X14: joining the tokens of a string with the separator gives the
    string back, and no token holds the separator. *)
Theorem join_split (sep : ascii) (s : string) :
  join sep (split sep s) = s ∧
  Forall (fun tok => has_char sep tok = false) (split sep s).
Proof.
  split.
  - induction s as [|c s IH]; [reflexivity|]. simpl.
    destruct (split_cons sep s) as (tok & rest & Hs). rewrite Hs in *.
    destruct (Ascii.eqb_spec c sep) as [->|Hne].
    + rewrite join_cons by discriminate.
      change (String sep (join sep (tok :: rest)) = String sep s).
      now rewrite IH.
    + destruct rest as [|tok' rest]; simpl in *; now rewrite <- IH.
  - induction s as [|c s IH]; simpl; [repeat constructor|].
    destruct (Ascii.eqb c sep) eqn:Hc; [constructor; [reflexivity | exact IH]|].
    destruct (split sep s) as [|tok rest]; [repeat constructor; simpl;
      now rewrite Hc|].
    inversion IH as [|? ? Htok Hrest]; subst.
    constructor; [simpl; now rewrite Hc, Htok | exact Hrest].
Qed.

(** X15: a list of tokens, not empty and none holding the separator, is
    what the string that joins them splits into. *)
Theorem split_join (sep : ascii) (toks : list string) :
  toks ≠ [] →
  Forall (fun tok => has_char sep tok = false) toks →
  split sep (join sep toks) = toks.
Proof.
  induction toks as [|tok toks IH]; [congruence|]. intros _ Hall.
  inversion Hall as [|? ? Htok Hrest]; subst.
  destruct toks as [|tok' toks].
  - simpl. now apply split_no_sep.
  - rewrite join_cons by discriminate.
    rewrite split_append by exact Htok.
    now rewrite IH by (discriminate || exact Hrest).
Qed.

Lemma rstrip_spec (s : string) :
  ∃ post, s = rstrip s +:+ post ∧ all_space post = true ∧
          ends_space (rstrip s) = false.
Proof.
  induction s as [|c s (post & Hs & Hpost & Hend)].
  - exists EmptyString. repeat split.
  - simpl. destruct (rstrip s) as [|a r] eqn:Hr.
    + assert (s = post) as -> by exact Hs.
      destruct (isspace c) eqn:Hc.
      * exists (String c post). split; [reflexivity|].
        split; [simpl; now rewrite Hc, Hpost | reflexivity].
      * exists post. split; [reflexivity|].
        split; [exact Hpost | exact Hc].
    + exists post.
      split; [exact (f_equal (String c) Hs)|].
      split; [exact Hpost | exact Hend].
Qed.

Lemma ends_space_cons (c : ascii) (s : string) :
  s ≠ EmptyString → ends_space (String c s) = ends_space s.
Proof. destruct s; [congruence | reflexivity]. Qed.

Lemma lstrip_spec (s : string) :
  ∃ pre, s = pre +:+ lstrip s ∧ all_space pre = true ∧
         starts_space (lstrip s) = false ∧
         (ends_space s = false → ends_space (lstrip s) = false).
Proof.
  induction s as [|c s (pre & Hs & Hpre & Hstart & Hend)].
  - exists EmptyString. repeat split.
  - simpl lstrip. destruct (isspace c) eqn:Hc.
    + exists (String c pre). split; [exact (f_equal (String c) Hs)|].
      split; [simpl; now rewrite Hc, Hpre|]. split; [exact Hstart|].
      intros H. destruct s as [|a s]; [reflexivity|].
      apply Hend. now rewrite ends_space_cons in H.
    + exists EmptyString. split; [reflexivity|]. split; [reflexivity|].
      split; [exact Hc | auto].
Qed.

(** X16: [strip] takes whitespace off both ends and nothing else: the
    string is its stripped form between two runs of whitespace, and the
    stripped form neither starts nor ends with whitespace. *)
Theorem strip_spec (s : string) :
  ∃ pre post,
    s = pre +:+ strip s +:+ post ∧
    all_space pre = true ∧ all_space post = true ∧
    starts_space (strip s) = false ∧ ends_space (strip s) = false.
Proof.
  unfold strip.
  destruct (rstrip_spec s) as (post & Hs & Hpost & Hend).
  destruct (lstrip_spec (rstrip s)) as (pre & Hr & Hpre & Hstart & Hend').
  exists pre, post.
  split; [|split; [exact Hpre | split; [exact Hpost | split;
                     [exact Hstart | now apply Hend']]]].
  transitivity ((pre +:+ lstrip (rstrip s)) +:+ post);
    [now rewrite <- Hr | apply string_app_assoc].
Qed.

Lemma rstrip_append_space (s w : string) :
  all_space w = true → rstrip (s +:+ w) = rstrip s.
Proof.
  intros Hw.
  assert (rstrip w = EmptyString) as Hrw.
  { induction w as [|c w IH]; [reflexivity|]. simpl in *.
    apply andb_true_iff in Hw as [Hc Hw]. now rewrite IH, Hc. }
  induction s as [|c s IH]; simpl; [exact Hrw | now rewrite IH].
Qed.

Lemma lstrip_append_space (w s : string) :
  all_space w = true → lstrip (w +:+ s) = lstrip s.
Proof.
  induction w as [|c w IH]; simpl; [reflexivity|].
  intros Hw. apply andb_true_iff in Hw as [Hc Hw]. rewrite Hc. now apply IH.
Qed.

Lemma rstrip_space_prefix (w s : string) :
  all_space w = true →
  rstrip (w +:+ s) =
  match rstrip s with
  | EmptyString => EmptyString
  | r => w +:+ r
  end.
Proof.
  induction w as [|c w IH]; simpl.
  - intros _. change (EmptyString +:+ s) with s. now destruct (rstrip s).
  - intros Hw. apply andb_true_iff in Hw as [Hc Hw]. rewrite IH by exact Hw.
    destruct (rstrip s) as [|a r]; [now rewrite Hc|].
    change (String c w +:+ String a r) with (String c (w +:+ String a r)).
    destruct (w +:+ String a r) eqn:E; [destruct w; discriminate E|].
    reflexivity.
Qed.

(** X17: whitespace at the ends of a line, tabs included, is gone before
    the line is split: a row with empty cells at its end, or an empty
    timestamp at its start, has the tokens of the row without them. *)
Theorem outer_whitespace_dropped (w1 s w2 : string) :
  all_space w1 = true → all_space w2 = true →
  split TAB (strip (w1 +:+ s +:+ w2)) = split TAB (strip s).
Proof.
  intros H1 H2. f_equal. unfold strip.
  rewrite <- string_app_assoc, rstrip_append_space by exact H2.
  rewrite rstrip_space_prefix by exact H1.
  destruct (rstrip s) as [|a r] eqn:Hr; [reflexivity|].
  now apply lstrip_append_space.
Qed.

(** ** Blanking *)

Lemma enumerate_lookup {A : Type} (l : list A) (i : nat) (x : A) :
  enumerate l !! i = Some (i, x) ↔ l !! i = Some x.
Proof.
  unfold enumerate. rewrite lookup_zip_Some. split.
  - tauto.
  - intros H. split; [|exact H]. apply lookup_seq.
    split; [reflexivity|]. now apply lookup_lt_Some in H.
Qed.

Lemma elem_of_enumerate {A : Type} (l : list A) (i : nat) (x : A) :
  (i, x) ∈ enumerate l ↔ l !! i = Some x.
Proof.
  rewrite list_elem_of_lookup. split.
  - intros [j Hj]. pose proof Hj as Hj'. unfold enumerate in Hj'.
    apply lookup_zip_Some in Hj' as [Hseq _].
    apply lookup_seq in Hseq as [Hi _]. simpl in Hi. subst i.
    exact (proj1 (enumerate_lookup l j x) Hj).
  - intros H. exists i. exact (proj2 (enumerate_lookup l i x) H).
Qed.

Lemma enumerate_names {A : Type} (l : list A) : (enumerate l).*2 = l.
Proof. unfold enumerate. apply snd_zip. now rewrite length_seq. Qed.

Lemma blank_keys_cons (read : string) (reads : list string) :
  blank_keys (read :: reads) =
  {[read; read +:+ "_err"]} ∪ blank_keys reads.
Proof. unfold blank_keys. simpl. set_solver. Qed.

Section Blank.

Variable arr : Type.
Variable mean_axis1 : arr → result arr.
Variable subtract : arr → arr → result arr.
Variable blank_error : arr → arr → result arr.

Lemma blank_read_Ok (name : string) (g b : gmap string arr) (read : string)
    (data data' : gmap string (gmap string arr)) :
  blank_read arr mean_axis1 subtract blank_error name g b read data
    = Ok data' →
  ∃ d v e,
    data !! name = Some d ∧ is_Some (g !! read) ∧ is_Some (b !! read) ∧
    data' = <[name := <[read +:+ "_err" := e]> (<[read := v]> d)]> data.
Proof.
  unfold blank_read. intros H. ok_inv H.
  apply or_raise_Ok in E, E0, E2, E4.
  rewrite lookup_insert_eq in E4. injection E4 as <-.
  injection H as <-. rewrite insert_insert_eq.
  exists a, a3, a7. eauto 10.
Qed.

Lemma blank_reads_Ok (name : string) (g b : gmap string arr)
    (reads : list string) (data data' : gmap string (gmap string arr))
    (d : gmap string arr) :
  for_each reads
    (blank_read arr mean_axis1 subtract blank_error name g b) data
    = Ok data' →
  data !! name = Some d →
  (∃ d', data' = <[name := d']> data ∧
         dom d' = dom d ∪ blank_keys reads) ∧
  ∀ read, read ∈ reads → is_Some (g !! read) ∧ is_Some (b !! read).
Proof.
  revert data d. induction reads as [|read reads IH]; intros data d Hrun Hd;
    simpl in Hrun.
  - injection Hrun as <-. split.
    + exists d. rewrite insert_id by exact Hd. split; [reflexivity|].
      unfold blank_keys. simpl. set_solver.
    + intros read Hread. now apply elem_of_nil in Hread.
  - ok_inv Hrun.
    apply blank_read_Ok in E as (d0 & v & e & Hd0 & Hg & Hb & ->).
    rewrite Hd in Hd0. injection Hd0 as <-.
    destruct (IH _ _ Hrun (lookup_insert_eq _ _ _)) as [(d' & -> & Hdom) Hall].
    split.
    + exists d'. rewrite insert_insert_eq. split; [reflexivity|].
      rewrite Hdom, !dom_insert_L, blank_keys_cons. set_solver.
    + intros r Hr. apply elem_of_cons in Hr as [-> | Hr]; [tauto | auto].
Qed.

Lemma blank_group_Ok (groups blanks : list (gmap string arr))
    (reads : list string) (i : nat) (name : string)
    (data data' : gmap string (gmap string arr)) :
  blank_group arr mean_axis1 subtract blank_error groups blanks reads
    (i, name) data = Ok data' →
  ∃ g b d',
    groups !! i = Some g ∧ blanks !! i = Some b ∧
    data' = <[name := d']> data ∧ dom d' = blank_keys reads ∧
    ∀ read, read ∈ reads → is_Some (g !! read) ∧ is_Some (b !! read).
Proof.
  unfold blank_group. simpl. intros H. ok_inv H.
  apply py_getitem_nonneg in E, E0; [|lia..]. rewrite Nat2Z.id in E, E0.
  destruct (blank_reads_Ok name a a0 reads _ _ ∅ H (lookup_insert_eq _ _ _))
    as [(d' & -> & Hdom) Hall].
  exists a, a0, d'. rewrite insert_insert_eq.
  rewrite dom_empty_L in Hdom.
  split; [exact E|]. split; [exact E0|]. split; [reflexivity|].
  split; [rewrite Hdom; set_solver | exact Hall].
Qed.

(** X18: the mapping [blank] returns has the group names as keys, and
    under each name a mapping whose keys are the reads and, for each read,
    the read followed by "_err". *)
Theorem blank_result_keys (group_names : list string)
    (groups blanks : list (gmap string arr)) (reads : list string)
    (out : gmap string (gmap string arr)) :
  blank arr mean_axis1 subtract blank_error group_names groups blanks reads
    = Ok out →
  dom out = list_to_set group_names ∧
  ∀ name d, out !! name = Some d → dom d = blank_keys reads.
Proof.
  unfold blank. intros Hrun.
  pose (P := fun (done : list (nat * string))
                 (data : gmap string (gmap string arr)) =>
    dom data = list_to_set done.*2 ∧
    ∀ name d, data !! name = Some d → dom d = blank_keys reads).
  assert (P (enumerate group_names) out) as [Hdom Hall].
  { change (enumerate group_names) with ([] ++ enumerate group_names).
    revert Hrun. apply (for_each_accum P).
    - intros done [i name] data data' _ [Hdom Hall] Hgroup.
      apply blank_group_Ok in Hgroup as (g & b & d' & _ & _ & -> & Hd' & _).
      split.
      + rewrite dom_insert_L, Hdom, fmap_app, list_to_set_app_L. simpl.
        set_solver.
      + intros n d. rewrite lookup_insert. case_decide.
        * now intros [= <-].
        * apply Hall.
    - split; [now rewrite dom_empty_L|].
      intros n d Hn. now rewrite lookup_empty in Hn. }
  rewrite enumerate_names in Hdom. split; [exact Hdom | exact Hall].
Qed.

(** X19: [blank] returns only when there is a group and a blank for every
    name and every read is a key of each of them: a missing group or blank
    raises, and so does a missing read. *)
Theorem blank_requirements (group_names : list string)
    (groups blanks : list (gmap string arr)) (reads : list string)
    (out : gmap string (gmap string arr)) :
  blank arr mean_axis1 subtract blank_error group_names groups blanks reads
    = Ok out →
  (length group_names ≤ length groups)%nat ∧
  (length group_names ≤ length blanks)%nat ∧
  ∀ i name g b read,
    group_names !! i = Some name →
    groups !! i = Some g → blanks !! i = Some b →
    read ∈ reads →
    is_Some (g !! read) ∧ is_Some (b !! read).
Proof.
  unfold blank. intros Hrun.
  assert (∀ i name, group_names !! i = Some name →
    ∃ g b, groups !! i = Some g ∧ blanks !! i = Some b ∧
           ∀ read, read ∈ reads → is_Some (g !! read) ∧ is_Some (b !! read))
    as Hvisit.
  { intros i name Hname.
    destruct (for_each_visits _ _ _ _ Hrun (i, name)) as (t & t' & Hgroup);
      [now apply elem_of_enumerate|].
    apply blank_group_Ok in Hgroup as (g & b & _ & Hg & Hb & _ & _ & Hall).
    eauto. }
  assert (∀ (l : list (gmap string arr)),
    (∀ i name, group_names !! i = Some name → is_Some (l !! i)) →
    (length group_names ≤ length l)%nat) as Hlen.
  { intros l Hl. destruct (decide (length group_names ≤ length l)%nat)
      as [|Hgt]; [assumption|].
    destruct (lookup_lt_is_Some_2 group_names (length l)) as [name Hname];
      [lia|].
    destruct (Hl _ _ Hname) as [x Hx]. apply lookup_lt_Some in Hx. lia. }
  split; [|split].
  - apply Hlen. intros i name Hname.
    destruct (Hvisit i name Hname) as (g & _ & Hg & _). eauto.
  - apply Hlen. intros i name Hname.
    destruct (Hvisit i name Hname) as (_ & b & _ & Hb & _). eauto.
  - intros i name g b read Hname Hg Hb Hread.
    destruct (Hvisit i name Hname) as (g' & b' & Hg' & Hb' & Hall).
    rewrite Hg in Hg'. injection Hg' as <-.
    rewrite Hb in Hb'. injection Hb' as <-. now apply Hall.
Qed.

End Blank.

(** ** Normalising *)

Lemma string_app_length (s t : string) :
  String.length (s +:+ t) = (String.length s + String.length t)%nat.
Proof.
  induction s as [|c s IH]; [reflexivity|].
  change (S (String.length (s +:+ t))
          = S (String.length s + String.length t)).
  now rewrite IH.
Qed.

Lemma err_key_not_od (read : string) : read +:+ "_err" ≠ "600".
Proof.
  intros H. apply (f_equal String.length) in H.
  rewrite string_app_length in H. simpl in H. lia.
Qed.

Section Normalize.

Variable arr : Type.
Variable ratio : arr → arr → result arr.
Variable rel_error : arr → arr → result arr.
Variable scale_error : arr → arr → arr → result arr.

Lemma norm_values_Ok (g : gmap string arr) (reads : list string)
    (c : gmap string arr) :
  norm_values arr ratio g reads = Ok c →
  dom c = list_to_set (filter (fun read => read ≠ "600") reads) ∧
  ∀ read, read ∈ reads → read ≠ "600" → is_Some (g !! read).
Proof.
  unfold norm_values.
  assert (∀ (l : list string) (c0 c : gmap string arr),
    for_each l
      (fun read c =>
         gr ← or_raise KeyError (g !! read);
         g6 ← or_raise KeyError (g !! "600");
         v ← ratio gr g6;
         Ok (<[read := v]> c)) c0 = Ok c →
    dom c = dom c0 ∪ (list_to_set l : gset string) ∧
    ∀ read, read ∈ l → is_Some (g !! read)) as Hgen.
  { induction l as [|read l IH]; intros c0 c1 Hrun; simpl in Hrun.
    - injection Hrun as <-. split; [set_solver|].
      intros read Hread. now apply elem_of_nil in Hread.
    - ok_inv Hrun. ok_inv E. injection E as <-.
      apply or_raise_Ok in E0.
      destruct (IH _ _ Hrun) as [Hdom Hall]. split.
      + rewrite Hdom, dom_insert_L. set_solver.
      + intros r Hr. apply elem_of_cons in Hr as [-> | Hr]; [eauto | auto]. }
  intros Hrun. destruct (Hgen _ _ _ Hrun) as [Hdom Hall]. split.
  - rewrite Hdom, dom_empty_L. set_solver.
  - intros read Hread Hne. apply Hall. now apply list_elem_of_filter.
Qed.

Lemma norm_errors_Ok (g d : gmap string arr) (reads : list string)
    (c : gmap string arr) :
  norm_errors arr rel_error scale_error g d reads = Ok c →
  dom c = list_to_set ((fun read => read +:+ "_err") <$>
                         filter (fun read => read ≠ "600") reads) ∧
  ∀ read, read ∈ reads → read ≠ "600" → is_Some (g !! (read +:+ "_err")).
Proof.
  unfold norm_errors.
  assert (∀ (l : list string) (c0 c : gmap string arr),
    for_each l
      (fun read c =>
         n ← or_raise KeyError (d !! read);
         ge ← or_raise KeyError (g !! (read +:+ "_err"));
         gr ← or_raise KeyError (g !! read);
         a ← rel_error ge gr;
         g6e ← or_raise KeyError (g !! "600_err");
         g6 ← or_raise KeyError (g !! "600");
         b ← rel_error g6e g6;
         v ← scale_error n a b;
         Ok (<[read +:+ "_err" := v]> c)) c0 = Ok c →
    dom c = dom c0 ∪
            (list_to_set ((fun read => read +:+ "_err") <$> l)
             : gset string) ∧
    ∀ read, read ∈ l → is_Some (g !! (read +:+ "_err"))) as Hgen.
  { induction l as [|read l IH]; intros c0 c1 Hrun; simpl in Hrun.
    - injection Hrun as <-. split; [set_solver|].
      intros read Hread. now apply elem_of_nil in Hread.
    - ok_inv Hrun. ok_inv E. injection E as <-.
      apply or_raise_Ok in E1.
      destruct (IH _ _ Hrun) as [Hdom Hall]. split.
      + rewrite Hdom, dom_insert_L. set_solver.
      + intros r Hr. apply elem_of_cons in Hr as [-> | Hr]; [eauto | auto]. }
  intros Hrun. destruct (Hgen _ _ _ Hrun) as [Hdom Hall]. split.
  - rewrite Hdom, dom_empty_L. set_solver.
  - intros read Hread Hne. apply Hall. now apply list_elem_of_filter.
Qed.

Lemma normalize_group_Ok (groups : list (gmap string arr))
    (reads : list string) (i : nat) (name : string)
    (data data' : gmap string (gmap string arr)) :
  normalize_group arr ratio rel_error scale_error groups reads (i, name) data
    = Ok data' →
  ∃ g d',
    groups !! i = Some g ∧ data' = <[name := d']> data ∧
    if contains "_err" name then d' = ∅
    else dom d' = norm_keys reads ∧
         is_Some (g !! "600") ∧ d' !! "600" = g !! "600" ∧
         is_Some (g !! "600_err") ∧ d' !! "600_err" = g !! "600_err" ∧
         ∀ read, read ∈ reads → read ≠ "600" →
                 is_Some (g !! read) ∧ is_Some (g !! (read +:+ "_err")).
Proof.
  unfold normalize_group. simpl. intros H.
  apply bind_Ok in H as (g & Hg & H).
  apply py_getitem_nonneg in Hg; [|lia]. rewrite Nat2Z.id in Hg.
  destruct (contains "_err" name); simpl in H.
  - injection H as <-. exists g, ∅. tauto.
  - ok_inv H. apply or_raise_Ok in E, E1, E2, E3, E5, E6.
    rewrite lookup_insert_eq in E. injection E as <-.
    rewrite lookup_insert_eq in E1. injection E1 as <-.
    rewrite lookup_insert_eq in E3. injection E3 as <-.
    rewrite lookup_insert_eq in E6. injection E6 as <-.
    injection H as <-. rewrite !insert_insert_eq.
    apply norm_values_Ok in E0 as [Hdom1 Hall1].
    apply norm_errors_Ok in E4 as [Hdom3 Hall3].
    eexists g, _. split; [exact Hg|]. split; [reflexivity|].
    split; [|split; [eauto|split; [|split; [eauto|split]]]].
    + rewrite dom_insert_L, dom_union_L, dom_insert_L, dom_union_L,
        dom_empty_L, Hdom1, Hdom3.
      unfold norm_keys, blank_keys. set_solver.
    + rewrite lookup_insert_ne by discriminate.
      rewrite lookup_union_r, lookup_insert_eq; [now rewrite E2|].
      apply not_elem_of_dom. rewrite Hdom3.
      rewrite elem_of_list_to_set, list_elem_of_fmap.
      intros (read & Hread & _). symmetry in Hread.
      now apply err_key_not_od in Hread.
    + rewrite lookup_insert_eq. now rewrite E5.
    + intros read Hread Hne. split; [now apply Hall1 | now apply Hall3].
Qed.

Lemma normalize_entries (group_names : list string)
    (groups : list (gmap string arr)) (reads : list string)
    (out : gmap string (gmap string arr)) :
  normalize arr ratio rel_error scale_error group_names groups reads
    = Ok out →
  dom out = list_to_set group_names ∧
  ∀ name d, out !! name = Some d →
    ∃ i g, group_names !! i = Some name ∧ groups !! i = Some g ∧
           if contains "_err" name then d = ∅
           else dom d = norm_keys reads ∧
                d !! "600" = g !! "600" ∧ d !! "600_err" = g !! "600_err".
Proof.
  unfold normalize. intros Hrun.
  pose (P := fun (done : list (nat * string))
                 (data : gmap string (gmap string arr)) =>
    dom data = list_to_set done.*2 ∧
    ∀ name d, data !! name = Some d →
      ∃ i g, (i, name) ∈ done ∧ groups !! i = Some g ∧
             if contains "_err" name then d = ∅
             else dom d = norm_keys reads ∧
                  d !! "600" = g !! "600" ∧
                  d !! "600_err" = g !! "600_err").
  assert (P (enumerate group_names) out) as [Hdom Hall].
  { change (enumerate group_names) with ([] ++ enumerate group_names).
    revert Hrun. apply (for_each_accum P).
    - intros done [i name] data data' _ [Hdom Hall] Hgroup.
      apply normalize_group_Ok in Hgroup as (g & d' & Hg & -> & Hd').
      split.
      + rewrite dom_insert_L, Hdom, fmap_app, list_to_set_app_L. simpl.
        clear Hd' Hall Hg Hdom. set_solver.
      + intros n d. rewrite lookup_insert. case_decide as Hn.
        * intros [= <-]. subst n. exists i, g.
          split; [apply elem_of_app; right; apply list_elem_of_singleton;
                  reflexivity|].
          split; [exact Hg|].
          destruct (contains "_err" name); [exact Hd' | tauto].
        * intros Hd. destruct (Hall n d Hd) as (j & g' & Hj & Hrest).
          exists j, g'. split; [apply elem_of_app; now left | exact Hrest].
    - split; [now rewrite dom_empty_L|].
      intros n d Hn. now rewrite lookup_empty in Hn. }
  rewrite enumerate_names in Hdom. split; [exact Hdom|].
  intros name d Hd. destruct (Hall name d Hd) as (i & g & Hi & Hrest).
  exists i, g. split; [now apply elem_of_enumerate | exact Hrest].
Qed.

(** X20: the mapping [normalize] returns has the group names as keys; a
    name that holds "_err" gets an empty mapping, and any other name one
    whose keys are "600", "600_err" and, for each read but "600", the read
    and the read followed by "_err". *)
Theorem normalize_result_keys (group_names : list string)
    (groups : list (gmap string arr)) (reads : list string)
    (out : gmap string (gmap string arr)) :
  normalize arr ratio rel_error scale_error group_names groups reads
    = Ok out →
  dom out = list_to_set group_names ∧
  ∀ name d, out !! name = Some d →
            if contains "_err" name then d = ∅
            else dom d = norm_keys reads.
Proof.
  intros Hrun. apply normalize_entries in Hrun as [Hdom Hall].
  split; [exact Hdom|]. intros name d Hd.
  destruct (Hall name d Hd) as (i & g & _ & _ & Hrest).
  destruct (contains "_err" name); tauto.
Qed.

(** X21: under a name without "_err", the entries "600" and "600_err" of
    what [normalize] returns are those of a group given under that name,
    as they are: the optical density is not divided by anything. *)
Theorem normalize_keeps_od (group_names : list string)
    (groups : list (gmap string arr)) (reads : list string)
    (out : gmap string (gmap string arr)) (name : string)
    (d : gmap string arr) :
  normalize arr ratio rel_error scale_error group_names groups reads
    = Ok out →
  out !! name = Some d →
  contains "_err" name = false →
  ∃ i g, group_names !! i = Some name ∧ groups !! i = Some g ∧
         d !! "600" = g !! "600" ∧ d !! "600_err" = g !! "600_err".
Proof.
  intros Hrun Hd Hname. apply normalize_entries in Hrun as [_ Hall].
  destruct (Hall name d Hd) as (i & g & Hi & Hg & Hrest).
  rewrite Hname in Hrest. exists i, g. tauto.
Qed.

(** X22: [normalize] returns only when there is a group for every name
    and, for every name without "_err", its group has the keys "600" and
    "600_err" and, for each read but "600", the read and the read followed
    by "_err"; the groups of the other names are not looked into. *)
Theorem normalize_requirements (group_names : list string)
    (groups : list (gmap string arr)) (reads : list string)
    (out : gmap string (gmap string arr)) :
  normalize arr ratio rel_error scale_error group_names groups reads
    = Ok out →
  (length group_names ≤ length groups)%nat ∧
  ∀ i name g,
    group_names !! i = Some name → groups !! i = Some g →
    contains "_err" name = false →
    is_Some (g !! "600") ∧ is_Some (g !! "600_err") ∧
    ∀ read, read ∈ reads → read ≠ "600" →
            is_Some (g !! read) ∧ is_Some (g !! (read +:+ "_err")).
Proof.
  unfold normalize. intros Hrun.
  assert (∀ i name, group_names !! i = Some name →
    ∃ (g d' : gmap string arr), groups !! i = Some g ∧
      if contains "_err" name then d' = ∅
      else dom d' = norm_keys reads ∧
           is_Some (g !! "600") ∧ d' !! "600" = g !! "600" ∧
           is_Some (g !! "600_err") ∧ d' !! "600_err" = g !! "600_err" ∧
           ∀ read, read ∈ reads → read ≠ "600" →
                   is_Some (g !! read) ∧ is_Some (g !! (read +:+ "_err")))
    as Hvisit.
  { intros i name Hname.
    destruct (for_each_visits _ _ _ _ Hrun (i, name)) as (t & t' & Hgroup);
      [now apply elem_of_enumerate|].
    apply normalize_group_Ok in Hgroup as (g & d' & Hg & _ & Hrest).
    eauto. }
  split.
  - destruct (decide (length group_names ≤ length groups)%nat)
      as [|Hgt]; [assumption|].
    destruct (lookup_lt_is_Some_2 group_names (length groups))
      as [name Hname]; [lia|].
    destruct (Hvisit _ _ Hname) as (g & _ & Hg & _).
    apply lookup_lt_Some in Hg. lia.
  - intros i name g Hname Hg Herr.
    destruct (Hvisit i name Hname) as (g' & d' & Hg' & Hrest).
    rewrite Hg in Hg'. injection Hg' as <-. rewrite Herr in Hrest. tauto.
Qed.

End Normalize.

(** ** Channels that are not open *)

Section Closed.

Variable py_float : string → option float.
Variable np_float64 : string → option float.
Variables R C T : Z.

Lemma cells_loop_other (element : list string) (r : string) (k : Z)
    (dd dd' : gmap string grid) (key : string) :
  cells_loop np_float64 R C element r k dd = Ok dd' →
  key ≠ r → dd' !! key = dd !! key.
Proof.
  unfold cells_loop. intros Hloop Hkey. revert Hloop.
  apply (for_each_invariant (fun d => d !! key = dd !! key)); [|reflexivity].
  intros row d d' Hrow Hd. apply elem_of_range in Hrow.
  apply (for_each_invariant (fun d => d !! key = dd !! key)); [|exact Hd].
  intros col e e' Hcol He Hcell. apply elem_of_range in Hcol.
  apply cell_Ok in Hcell as (g & p & tok & v & _ & _ & _ & _ & ->); [|lia..].
  rewrite lookup_insert_ne by congruence. exact He.
Qed.

Lemma step_other (st st' : state) (line : string) (r : string) :
  read st ≠ Some r →
  (is_header line = true → drop_last line ≠ r) →
  step py_float np_float64 R C T line st = Ok st' →
  read st' ≠ Some r ∧
  data_dict st' !! r = data_dict st !! r ∧
  time_dict st' !! r = time_dict st !! r.
Proof.
  intros Hread Hname. unfold step. destruct (is_header line).
  - intros Hopen.
    destruct (open_channel_dims _ _ _ _ _ _ Hopen) as (HR & HC & HT).
    rewrite open_channel_ok in Hopen by assumption. injection Hopen as <-.
    simpl. specialize (Hname eq_refl).
    rewrite !lookup_insert_ne by exact Hname.
    split; [congruence | tauto].
  - destruct (is_data line).
    + intros Hrow. apply data_row_Ok in Hrow
        as (i & r0 & tok & rest & h & t & t' & dd' & _ & Hr0 & _ & _ & _ & _ &
            Hloop & ->).
      simpl. rewrite Hr0 in Hread.
      assert (r ≠ r0) as Hne by congruence.
      rewrite (cells_loop_other _ _ _ _ _ r Hloop Hne).
      rewrite lookup_insert_ne by congruence.
      split; [congruence | tauto].
    + intros [= <-]. tauto.
Qed.

(** X23: the arrays of a channel that is not the open one are not touched
    again, whatever the lines that follow, until a header line with its
    name comes back. *)
Theorem closed_channel_kept (lines : list string) (st st' : state)
    (r : string) :
  read st ≠ Some r →
  Forall (fun l => is_header l = true → drop_last l ≠ r) lines →
  run py_float np_float64 R C T lines st = Ok st' →
  data_dict st' !! r = data_dict st !! r ∧
  time_dict st' !! r = time_dict st !! r.
Proof.
  unfold run. intros Hread Hall. revert st Hread.
  induction Hall as [|line lines Hline _ IH]; intros st Hread Hrun;
    simpl in Hrun.
  - injection Hrun as <-. tauto.
  - ok_inv Hrun.
    destruct (step_other st a line r Hread Hline E) as (Hread' & Hd & Ht).
    destruct (IH a Hread' Hrun) as [Hd' Ht'].
    rewrite Hd', Ht'. tauto.
Qed.

(** X24: skipped lines can be taken out of a file without changing what
    the parser does with it. *)
Theorem skipped_lines_removable (lines : list string) (st : state) :
  run py_float np_float64 R C T lines st =
  run py_float np_float64 R C T
    (filter (fun l => classify l ≠ Skip) lines) st.
Proof.
  unfold run. revert st. induction lines as [|line lines IH]; intros st;
    [reflexivity|].
  rewrite filter_cons. destruct (decide (classify line ≠ Skip)) as [Hk|Hk].
  - cbn [for_each]. destruct (step py_float np_float64 R C T line st);
      simpl; [apply IH | reflexivity].
  - cbn [for_each]. rewrite step_classify.
    destruct (classify line); try (exfalso; apply Hk; discriminate).
    simpl. apply IH.
Qed.

End Closed.

(** ** The further properties on the samples *)

Example sample_blanked_value :
  sample_blanked !! "a"
  = Some (list_to_map [("GFP", 7%float); ("GFP_err", 0%float)]).
Proof. vm_compute. reflexivity. Qed.

Example sample_normalized_value :
  (sample_normalized !! "a" ≫= (.!! "GFP")) = Some (8 / (0.5 + 2))%float ∧
  sample_normalized !! "a_err" = Some ∅.
Proof. split; vm_compute; reflexivity. Qed.

Lemma sample_row_complete :
  row_complete decimal_literal 1 4
    ["00:00:00"; "A1"; "1.0"; "2.0"; "OVRFLW"; "4.0"].
Proof.
  intros row col Hrow Hcol.
  assert (row = 0) as -> by lia.
  assert (col = 0 ∨ col = 1 ∨ col = 2 ∨ col = 3) as [-> | [-> | [-> | ->]]]
    by lia.
  - exists "1.0", 1%float. split; vm_compute; reflexivity.
  - exists "2.0", 2%float. split; vm_compute; reflexivity.
  - exists "OVRFLW", nan. split; vm_compute; reflexivity.
  - exists "4.0", 4%float. split; vm_compute; reflexivity.
Defined.

Lemma complete_row_parses_witness :
  ∃ st', step decimal_literal decimal_literal 1 4 0 sample_row sample_open
           = Ok st' ∧
         time_i st' = Some (-1 + 1) ∧ read st' = read sample_open.
Proof.
  apply (complete_row_parses decimal_literal decimal_literal 1 4 0
           [sample_header] sample_open sample_row (-1) "00:00:00"
           ["A1"; "1.0"; "2.0"; "OVRFLW"; "4.0"] 0%float);
    first [lia | exact sample_row_complete | vm_compute; reflexivity].
Defined.

Lemma row_touches_one_time_point_witness :
  (∀ key, key ≠ "600" →
     data_dict sample_read !! key = data_dict sample_open !! key ∧
     time_dict sample_read !! key = time_dict sample_open !! key) ∧
  ∃ g g' t h,
    data_dict sample_open !! "600" = Some g ∧
    data_dict sample_read !! "600" = Some g' ∧
    time_dict sample_open !! "600" = Some t ∧
    time_dict sample_read !! "600" = Some (<[Z.to_nat (-1 + 1) := h]> t) ∧
    ∀ a b k', 0 ≤ a < 1 → 0 ≤ b < 4 → 0 ≤ k' < 0 + 1 → k' ≠ -1 + 1 →
              grid_getitem g' a b k' = grid_getitem g a b k'.
Proof.
  apply (row_touches_one_time_point decimal_literal decimal_literal 1 4 0
           [sample_header] sample_open sample_read sample_row (-1) "600");
    vm_compute; reflexivity.
Defined.

Lemma unread_time_points_missing_witness :
  ∃ g t, data_dict sample_roomy !! "600" = Some g ∧
         time_dict sample_roomy !! "600" = Some t ∧
         ∀ k', 0 < k' < 2 + 1 →
               t !! Z.to_nat k' = Some nan ∧
               ∀ a b, 0 ≤ a < 1 → 0 ≤ b < 4 →
                      grid_getitem g a b k' = Ok nan.
Proof.
  apply (unread_time_points_missing decimal_literal decimal_literal 1 4 2
           sample_file sample_roomy 0 "600"); vm_compute; reflexivity.
Defined.

Lemma returned_keys_witness :
  dom (fst (got (∅, ∅) (Organize decimal_literal decimal_literal
                          sample_file 1 4 0 0.5)))
    = channel_names sample_file ∧
  dom (snd (got (∅, ∅) (Organize decimal_literal decimal_literal
                          sample_file 1 4 0 0.5)))
    = channel_names sample_file.
Proof.
  apply (returned_keys decimal_literal decimal_literal 1 4 sample_file
           0 0.5); vm_compute; reflexivity.
Defined.

Lemma time_index_counts_rows_witness :
  time_i (got init (run decimal_literal decimal_literal 1 4 0
                      (sample_header :: [sample_labels; sample_row; NL])
                      init))
    = Some (data_rows [sample_labels; sample_row; NL] - 1) ∧
  read (got init (run decimal_literal decimal_literal 1 4 0
                    (sample_header :: [sample_labels; sample_row; NL])
                    init))
    = Some (drop_last sample_header).
Proof.
  apply (time_index_counts_rows decimal_literal decimal_literal 1 4 0
           sample_header [sample_labels; sample_row; NL] init).
  - vm_compute. reflexivity.
  - repeat (constructor; [vm_compute; discriminate|]). constructor.
  - vm_compute. reflexivity.
Defined.

Lemma short_row_raises_witness :
  ∃ e, step decimal_literal decimal_literal 1 4 0 sample_short_row
         sample_open = Raise e.
Proof.
  apply (short_row_raises decimal_literal decimal_literal 1 4 0 sample_open
           sample_short_row); first [lia | vm_compute; reflexivity].
Defined.

Lemma row_outcome_witness :
  match step decimal_literal decimal_literal 1 4 0 sample_bad_row
          sample_open with
  | Ok _ =>
      row_complete decimal_literal 1 4
        ("00:00:00" :: ["A1"; "1.0"; "x"; "3"; "4"])
  | Raise e =>
      row_failure decimal_literal 1 4
        ("00:00:00" :: ["A1"; "1.0"; "x"; "3"; "4"]) e
  end.
Proof.
  apply (row_outcome decimal_literal decimal_literal 1 4 0 [sample_header]
           sample_open sample_bad_row (-1) "00:00:00"
           ["A1"; "1.0"; "x"; "3"; "4"] 0%float);
    first [lia | vm_compute; reflexivity].
Defined.

Lemma bad_timestamp_raises_witness :
  ((length (split ":" "00:00") < 3)%nat →
   step decimal_literal decimal_literal 1 4 0 sample_untimed_row sample_open
   = Raise IndexError) ∧
  (∀ hs ms ss more,
     split ":" "00:00" = hs :: ms :: ss :: more →
     decimal_literal hs = None ∨ decimal_literal ms = None ∨
     decimal_literal ss = None →
     step decimal_literal decimal_literal 1 4 0 sample_untimed_row
       sample_open = Raise ValueError).
Proof.
  apply (bad_timestamp_raises decimal_literal decimal_literal 1 4 0
           sample_open sample_untimed_row (-1) "00:00"
           ["A1"; "1"; "2"; "3"; "4"]); vm_compute; reflexivity.
Defined.

Lemma label_and_surplus_ignored_witness :
  step decimal_literal decimal_literal 1 4 0 sample_row sample_open =
  step decimal_literal decimal_literal 1 4 0 sample_other_row sample_open.
Proof.
  apply (label_and_surplus_ignored decimal_literal decimal_literal 1 4 0
           sample_open sample_row sample_other_row "00:00:00" "A1" "B7"
           ["1.0"; "2.0"; "OVRFLW"; "4.0"]
           ["1.0"; "2.0"; "OVRFLW"; "4.0"; "9"]); vm_compute; reflexivity.
Defined.

Lemma header_names_channel_witness :
  ∃ st',
    step decimal_literal decimal_literal 1 4 0
      ("GF" +:+ String "P"%char EmptyString) init = Ok st' ∧
    read st' = Some "GF" ∧
    data_dict st' !! "GF" = Some (missing_grid 1 4 0) ∧
    time_dict st' !! "GF" = Some (missing_vec 0).
Proof.
  apply (header_names_channel decimal_literal decimal_literal 1 4 0 init
           "GF" "P"%char); first [lia | vm_compute; reflexivity].
Defined.

Lemma skipped_file_empty_witness :
  Organize decimal_literal decimal_literal [NL; sample_labels] 1 4 0 0.5
  = Ok (∅, ∅).
Proof.
  apply (skipped_file_empty decimal_literal decimal_literal 1 4
           [NL; sample_labels] 0 0.5 0 0).
  - repeat (constructor; [vm_compute; reflexivity|]). constructor.
  - vm_compute. reflexivity.
  - vm_compute. reflexivity.
Defined.

Lemma negative_dimension_raises_witness :
  run decimal_literal decimal_literal (-1) 4 0
    ([NL] ++ sample_header :: [sample_row]) init = Raise ValueError.
Proof.
  apply (negative_dimension_raises decimal_literal decimal_literal (-1) 4 0
           [NL] [sample_row] sample_header init).
  - repeat (constructor; [vm_compute; reflexivity|]). constructor.
  - vm_compute. reflexivity.
  - left. lia.
Defined.

Lemma split_join_witness :
  split TAB (join TAB ["00:00:00"; "A1"; "1.0"]) = ["00:00:00"; "A1"; "1.0"].
Proof.
  apply (split_join TAB ["00:00:00"; "A1"; "1.0"]).
  - discriminate.
  - repeat (constructor; [vm_compute; reflexivity|]). constructor.
Defined.

Lemma outer_whitespace_dropped_witness :
  split TAB (strip (String TAB EmptyString +:+ "0:0:0" +:+
                    String TAB (String TAB NL)))
  = split TAB (strip "0:0:0").
Proof.
  apply (outer_whitespace_dropped (String TAB EmptyString) "0:0:0"
           (String TAB (String TAB NL))); vm_compute; reflexivity.
Defined.

Lemma closed_channel_kept_witness :
  data_dict (got init (run decimal_literal decimal_literal 1 4 0
                         [sample_row; "RFP" +:+ NL] sample_closed)) !! "600"
    = data_dict sample_closed !! "600" ∧
  time_dict (got init (run decimal_literal decimal_literal 1 4 0
                         [sample_row; "RFP" +:+ NL] sample_closed)) !! "600"
    = time_dict sample_closed !! "600".
Proof.
  apply (closed_channel_kept decimal_literal decimal_literal 1 4 0
           [sample_row; "RFP" +:+ NL] sample_closed _ "600").
  - vm_compute. discriminate.
  - repeat (constructor; [vm_compute; congruence|]). constructor.
  - vm_compute. reflexivity.
Defined.

Lemma blank_result_keys_witness :
  dom sample_blanked = list_to_set ["a"] ∧
  ∀ name d, sample_blanked !! name = Some d → dom d = blank_keys ["GFP"].
Proof.
  apply (blank_result_keys float sample_mean sample_subtract
           sample_blank_error ["a"] [sample_group] [sample_blank_group]
           ["GFP"] sample_blanked).
  vm_compute. reflexivity.
Defined.

Lemma blank_requirements_witness :
  (length ["a"] ≤ length [sample_group])%nat ∧
  (length ["a"] ≤ length [sample_blank_group])%nat ∧
  ∀ i name g b read,
    ["a"] !! i = Some name →
    [sample_group] !! i = Some g → [sample_blank_group] !! i = Some b →
    read ∈ ["GFP"] →
    is_Some (g !! read) ∧ is_Some (b !! read).
Proof.
  apply (blank_requirements float sample_mean sample_subtract
           sample_blank_error ["a"] [sample_group] [sample_blank_group]
           ["GFP"] sample_blanked).
  vm_compute. reflexivity.
Defined.

Lemma normalize_result_keys_witness :
  dom sample_normalized = list_to_set ["a"; "a_err"] ∧
  ∀ name d, sample_normalized !! name = Some d →
            if contains "_err" name then d = ∅
            else dom d = norm_keys ["GFP"; "600"].
Proof.
  apply (normalize_result_keys float sample_ratio sample_rel_error
           sample_scale_error ["a"; "a_err"] [sample_group; ∅]
           ["GFP"; "600"] sample_normalized).
  vm_compute. reflexivity.
Defined.

Lemma normalize_keeps_od_witness :
  ∃ i g, ["a"; "a_err"] !! i = Some "a" ∧
         [sample_group; ∅] !! i = Some g ∧
         default ∅ (sample_normalized !! "a") !! "600" = g !! "600" ∧
         default ∅ (sample_normalized !! "a") !! "600_err" = g !! "600_err".
Proof.
  apply (normalize_keeps_od float sample_ratio sample_rel_error
           sample_scale_error ["a"; "a_err"] [sample_group; ∅]
           ["GFP"; "600"] sample_normalized "a"
           (default ∅ (sample_normalized !! "a"))); vm_compute; reflexivity.
Defined.

Lemma normalize_requirements_witness :
  (length ["a"; "a_err"] ≤ length [sample_group; (∅ : gmap string float)])%nat ∧
  ∀ i name g,
    ["a"; "a_err"] !! i = Some name →
    [sample_group; ∅] !! i = Some g →
    contains "_err" name = false →
    is_Some (g !! "600") ∧ is_Some (g !! "600_err") ∧
    ∀ read, read ∈ ["GFP"; "600"] → read ≠ "600" →
            is_Some (g !! read) ∧ is_Some (g !! (read +:+ "_err")).
Proof.
  apply (normalize_requirements float sample_ratio sample_rel_error
           sample_scale_error ["a"; "a_err"] [sample_group; ∅]
           ["GFP"; "600"] sample_normalized).
  vm_compute. reflexivity.
Defined.
